(** * The access-control panel server: a shallow embedding

    The server keeps two process-wide aggregates, [accessStore] (client
    records, IP bans, the access-lockdown flag) and [state] (site lockdown
    and the current broadcast), and writes each of them to its file on
    mutation.  The embedding follows the most complete revision of the
    server.  Handlers are functions in a small state monad over a [World]
    that holds both aggregates, the writes made to the two files, the
    messages pushed to the realtime channel and the readings of the clock.

    Conventions of the embedding:
    - a JavaScript string is a [string], one [ascii] per UTF-16 code unit,
      for code units below 256;
    - a JavaScript number is a [Z] (timestamps are integral milliseconds);
    - a reference to a client record (the object stored under
      [accessStore.clients[id]]) is the key [id]; a write through the
      reference is an [alter] at that key;
    - [accessStore.clients] and [accessStore.ipBans] are finite maps over
      their own keys (property names inherited from [Object.prototype] are
      not part of the model). *)

From Stdlib Require Import ZArith Lia Bool Ascii String.
From stdpp Require Import gmap strings list fin_maps.

Local Open Scope string_scope.
Local Open Scope Z_scope.

(** ** JavaScript values and strings *)

Inductive jsval :=
| JUndefined
| JNull
| JBool (b : bool)
| JNum (n : Z)
| JStr (s : string)
| JObj.

Definition truthy (v : jsval) : bool :=
  match v with
  | JUndefined | JNull => false
  | JBool b => b
  | JNum n => negb (n =? 0)
  | JStr s => negb (String.eqb s "")
  | JObj => true
  end.

(** [a || b] *)
Definition jsOr (a b : jsval) : jsval := if truthy a then a else b.

(** [s || t] on a header or property that is a string or [undefined] *)
Definition strOr (a : option string) (b : string) : string :=
  match a with
  | Some s => if String.eqb s "" then b else s
  | None => b
  end.

Definition isEmpty (s : string) : bool := String.eqb s "".

Module JsString.

(** White space and line terminators stripped by [String.prototype.trim]
    (the code points below 256). *)
Definition isWhiteSpace (c : ascii) : bool :=
  let n := nat_of_ascii c in
  ((9 <=? n)%nat && (n <=? 13)%nat) || (n =? 32)%nat || (n =? 160)%nat.

Fixpoint trimStart (s : string) : string :=
  match s with
  | EmptyString => EmptyString
  | String c r => if isWhiteSpace c then trimStart r else s
  end.

Fixpoint trimEnd (s : string) : string :=
  match s with
  | EmptyString => EmptyString
  | String c r =>
      match trimEnd r with
      | EmptyString => if isWhiteSpace c then EmptyString else String c EmptyString
      | r' => String c r'
      end
  end.

Definition trim (s : string) : string := trimEnd (trimStart s).

Definition lowerChar (c : ascii) : ascii :=
  let n := nat_of_ascii c in
  if ((65 <=? n)%nat && (n <=? 90)%nat)
     || ((192 <=? n)%nat && (n <=? 222)%nat && negb (n =? 215)%nat)
  then ascii_of_nat (n + 32) else c.

Fixpoint toLowerCase (s : string) : string :=
  match s with
  | EmptyString => EmptyString
  | String c r => String (lowerChar c) (toLowerCase r)
  end.

(** [s.includes(p)] *)
Fixpoint includes (s p : string) : bool :=
  String.prefix p s ||
  match s with
  | EmptyString => false
  | String _ r => includes r p
  end.

(** [s.slice(0, n)] for [0 <= n] *)
Definition slice0 (s : string) (n : nat) : string := String.substring 0 n s.

End JsString.

Definition normalizeStr (x : jsval) : string :=
  match x with
  | JStr s => JsString.trim s
  | _ => ""
  end.

Definition clampStr (s : jsval) (maxLen : nat) : string :=
  let x := normalizeStr s in
  if isEmpty x then ""
  else if (String.length x <=? maxLen)%nat then x
  else JsString.slice0 x maxLen.

Definition formatUA (ua : jsval) : string := clampStr ua 300.

(** ** Requests *)

Record Device := {
  dev_ua : jsval;
  dev_platform : jsval;
  dev_language : jsval;
  dev_timezone : jsval;
  dev_screen : jsval
}.

(** The parts of an Express request the handlers read.  A missing body is a
    body all of whose fields are [JUndefined]; [body_device] is [None]
    unless [req.body.device] is a non-null object. *)
Record Request := {
  req_ip : option string;              (* req.ip *)
  req_remoteAddress : option string;   (* req.socket?.remoteAddress *)
  hdr_userAgent : option string;       (* req.headers["user-agent"] *)
  hdr_adminPin : option string;        (* req.header("x-admin-pin") *)
  body_clientID : jsval;
  body_pinAttempt : jsval;
  body_device : option Device;
  body_ip : jsval;
  body_banMessage : jsval;
  body_enabled : jsval;
  body_message : jsval
}.

Definition getRequestIP (req : Request) : string :=
  normalizeStr (JStr (strOr (req_ip req) (strOr (req_remoteAddress req) ""))).

(** ** The two aggregates *)

(** A client record.  A property that a record read back from the file
    lacks reads as the empty string or as 0, which is how the code treats
    it; [status] is kept as the string stored, since records written by the
    earlier revision carry "unbanned" there. *)
Record ClientRecord := {
  status : string;
  firstSeenAt : Z;
  lastSeenAt : Z;
  verifiedAt : Z;
  suspiciousAt : Z;
  ua : string;
  platform : string;
  language : string;
  timezone : string;
  screen : string;
  ipFirst : string;
  ipLast : string;
  ipLastSeenAt : Z;
  banMessage : string
}.

Record IPBanRecord := {
  ban_message : string;
  ban_createdAt : Z;
  ban_updatedAt : Z
}.

Record AccessStore := {
  lockdown : bool;
  clients : gmap string ClientRecord;
  ipBans : gmap string IPBanRecord
}.

Record Lockdown := {
  enabled : bool;
  updatedAt : Z
}.

(** [makeId()] joins a reading of the clock and a random draw; the two
    parts are kept apart instead of being printed in base 36. *)
Record BroadcastId := {
  id_time : Z;
  id_random : string
}.

(** [expiresAt] stays a [jsval]: a broadcast read back from the state file
    may carry anything there, and [pruneExpiredBroadcast] tests its type. *)
Record Broadcast := {
  b_id : BroadcastId;
  b_message : string;
  b_createdAt : Z;
  b_expiresAt : jsval
}.

Record SiteState := {
  site_lockdown : Lockdown;
  broadcast : option Broadcast
}.

(** Messages pushed on the realtime channel. *)
Inductive WsMessage :=
| WsState (l : Lockdown) (b : option Broadcast)
| WsBroadcast (b : Broadcast)
| WsLockdown (en : bool) (at_ : Z).

(** ** The world and the handler monad *)

Record World := {
  accessStore : AccessStore;
  accessFile : list AccessStore;   (* documents written by saveAccess, latest first *)
  state : SiteState;
  stateFile : list SiteState;      (* documents written by saveState, latest first *)
  wsSent : list WsMessage;         (* events fanned out by broadcastWS, latest first *)
  clock : nat -> Z;                (* successive readings of Date.now() *)
  ticks : nat;                     (* readings consumed so far *)
  random : nat -> string;          (* successive draws of Math.random, as printed *)
  draws : nat
}.

Definition M (A : Type) : Type := World -> A * World.

Definition ret {A} (a : A) : M A := fun w => (a, w).

Definition bind {A B} (m : M A) (k : A -> M B) : M B :=
  fun w => let (a, w') := m w in k a w'.

Notation "'let*' x ':=' c 'in' k" := (bind c (fun x => k))
  (at level 10, x name, c at level 200, k at level 200).
Notation "c ';;' k" := (bind c (fun _ => k))
  (at level 100, k at level 200, right associativity).

Definition gets {A} (f : World -> A) : M A := fun w => (f w, w).

Definition modify (f : World -> World) : M unit := fun w => (tt, f w).

Definition withAccessStore (a : AccessStore) (w : World) : World :=
  {| accessStore := a; accessFile := accessFile w; state := state w;
     stateFile := stateFile w; wsSent := wsSent w; clock := clock w;
     ticks := ticks w; random := random w; draws := draws w |}.

Definition withAccessFile (f : list AccessStore) (w : World) : World :=
  {| accessStore := accessStore w; accessFile := f; state := state w;
     stateFile := stateFile w; wsSent := wsSent w; clock := clock w;
     ticks := ticks w; random := random w; draws := draws w |}.

Definition withState (s : SiteState) (w : World) : World :=
  {| accessStore := accessStore w; accessFile := accessFile w; state := s;
     stateFile := stateFile w; wsSent := wsSent w; clock := clock w;
     ticks := ticks w; random := random w; draws := draws w |}.

Definition withStateFile (f : list SiteState) (w : World) : World :=
  {| accessStore := accessStore w; accessFile := accessFile w; state := state w;
     stateFile := f; wsSent := wsSent w; clock := clock w;
     ticks := ticks w; random := random w; draws := draws w |}.

Definition withWsSent (l : list WsMessage) (w : World) : World :=
  {| accessStore := accessStore w; accessFile := accessFile w; state := state w;
     stateFile := stateFile w; wsSent := l; clock := clock w;
     ticks := ticks w; random := random w; draws := draws w |}.

Definition withTicks (n : nat) (w : World) : World :=
  {| accessStore := accessStore w; accessFile := accessFile w; state := state w;
     stateFile := stateFile w; wsSent := wsSent w; clock := clock w;
     ticks := n; random := random w; draws := draws w |}.

Definition withDraws (n : nat) (w : World) : World :=
  {| accessStore := accessStore w; accessFile := accessFile w; state := state w;
     stateFile := stateFile w; wsSent := wsSent w; clock := clock w;
     ticks := ticks w; random := random w; draws := n |}.

Definition nowMs : M Z :=
  fun w => (clock w (ticks w), withTicks (S (ticks w)) w).

Definition makeId : M BroadcastId :=
  let* t := nowMs in
  let* r := (fun w => (random w (draws w), withDraws (S (draws w)) w)) in
  ret {| id_time := t; id_random := r |}.

(** [saveState] and [saveAccess] write the whole aggregate to its file; a
    write that fails is logged and otherwise ignored, so the model records
    the document handed to the file system. *)
Definition saveState : M unit :=
  modify (fun w => withStateFile (state w :: stateFile w) w).

Definition saveAccess : M unit :=
  modify (fun w => withAccessFile (accessStore w :: accessFile w) w).

(** One event sent to every open subscription; a failed send is ignored. *)
Definition broadcastWS (m : WsMessage) : M unit :=
  modify (fun w => withWsSent (m :: wsSent w) w).

(** ** Site state *)

Definition withBroadcast (b : option Broadcast) (s : SiteState) : SiteState :=
  {| site_lockdown := site_lockdown s; broadcast := b |}.

Definition withSiteLockdown (l : Lockdown) (s : SiteState) : SiteState :=
  {| site_lockdown := l; broadcast := broadcast s |}.

Definition pruneExpiredBroadcast : M unit :=
  let* b := gets (fun w => broadcast (state w)) in
  match b with
  | None => ret tt
  | Some b =>
      match b_expiresAt b with
      | JNum expiresAt =>
          let* now := nowMs in
          if expiresAt <=? now then
            modify (fun w => withState (withBroadcast None (state w)) w) ;;
            saveState
          else ret tt
      | _ => ret tt
      end
  end.

(** ** Access store *)

Definition set_status (v : string) (r : ClientRecord) : ClientRecord :=
  {| status := v; firstSeenAt := firstSeenAt r; lastSeenAt := lastSeenAt r;
     verifiedAt := verifiedAt r; suspiciousAt := suspiciousAt r; ua := ua r;
     platform := platform r; language := language r; timezone := timezone r;
     screen := screen r; ipFirst := ipFirst r; ipLast := ipLast r;
     ipLastSeenAt := ipLastSeenAt r; banMessage := banMessage r |}.

Definition set_lastSeenAt (v : Z) (r : ClientRecord) : ClientRecord :=
  {| status := status r; firstSeenAt := firstSeenAt r; lastSeenAt := v;
     verifiedAt := verifiedAt r; suspiciousAt := suspiciousAt r; ua := ua r;
     platform := platform r; language := language r; timezone := timezone r;
     screen := screen r; ipFirst := ipFirst r; ipLast := ipLast r;
     ipLastSeenAt := ipLastSeenAt r; banMessage := banMessage r |}.

Definition set_verifiedAt (v : Z) (r : ClientRecord) : ClientRecord :=
  {| status := status r; firstSeenAt := firstSeenAt r; lastSeenAt := lastSeenAt r;
     verifiedAt := v; suspiciousAt := suspiciousAt r; ua := ua r;
     platform := platform r; language := language r; timezone := timezone r;
     screen := screen r; ipFirst := ipFirst r; ipLast := ipLast r;
     ipLastSeenAt := ipLastSeenAt r; banMessage := banMessage r |}.

Definition set_suspiciousAt (v : Z) (r : ClientRecord) : ClientRecord :=
  {| status := status r; firstSeenAt := firstSeenAt r; lastSeenAt := lastSeenAt r;
     verifiedAt := verifiedAt r; suspiciousAt := v; ua := ua r;
     platform := platform r; language := language r; timezone := timezone r;
     screen := screen r; ipFirst := ipFirst r; ipLast := ipLast r;
     ipLastSeenAt := ipLastSeenAt r; banMessage := banMessage r |}.

Definition set_telemetry (u p l t s : string) (r : ClientRecord) : ClientRecord :=
  {| status := status r; firstSeenAt := firstSeenAt r; lastSeenAt := lastSeenAt r;
     verifiedAt := verifiedAt r; suspiciousAt := suspiciousAt r; ua := u;
     platform := p; language := l; timezone := t;
     screen := s; ipFirst := ipFirst r; ipLast := ipLast r;
     ipLastSeenAt := ipLastSeenAt r; banMessage := banMessage r |}.

Definition set_ipFirst (v : string) (r : ClientRecord) : ClientRecord :=
  {| status := status r; firstSeenAt := firstSeenAt r; lastSeenAt := lastSeenAt r;
     verifiedAt := verifiedAt r; suspiciousAt := suspiciousAt r; ua := ua r;
     platform := platform r; language := language r; timezone := timezone r;
     screen := screen r; ipFirst := v; ipLast := ipLast r;
     ipLastSeenAt := ipLastSeenAt r; banMessage := banMessage r |}.

Definition set_ipLast (v : string) (at_ : Z) (r : ClientRecord) : ClientRecord :=
  {| status := status r; firstSeenAt := firstSeenAt r; lastSeenAt := lastSeenAt r;
     verifiedAt := verifiedAt r; suspiciousAt := suspiciousAt r; ua := ua r;
     platform := platform r; language := language r; timezone := timezone r;
     screen := screen r; ipFirst := ipFirst r; ipLast := v;
     ipLastSeenAt := at_; banMessage := banMessage r |}.

Definition set_banMessage (v : string) (r : ClientRecord) : ClientRecord :=
  {| status := status r; firstSeenAt := firstSeenAt r; lastSeenAt := lastSeenAt r;
     verifiedAt := verifiedAt r; suspiciousAt := suspiciousAt r; ua := ua r;
     platform := platform r; language := language r; timezone := timezone r;
     screen := screen r; ipFirst := ipFirst r; ipLast := ipLast r;
     ipLastSeenAt := ipLastSeenAt r; banMessage := v |}.

Definition withLockdown (b : bool) (a : AccessStore) : AccessStore :=
  {| lockdown := b; clients := clients a; ipBans := ipBans a |}.

Definition withClients (c : gmap string ClientRecord) (a : AccessStore) : AccessStore :=
  {| lockdown := lockdown a; clients := c; ipBans := ipBans a |}.

Definition withIpBans (b : gmap string IPBanRecord) (a : AccessStore) : AccessStore :=
  {| lockdown := lockdown a; clients := clients a; ipBans := b |}.

(** A write [rec.field = v] through the reference [id]. *)
Definition updClient (id : string) (f : ClientRecord -> ClientRecord) : M unit :=
  modify (fun w =>
    withAccessStore (withClients (alter f id (clients (accessStore w))) (accessStore w)) w).

(** [accessStore.clients[id] = rec] *)
Definition putClient (id : string) (rec : ClientRecord) : M unit :=
  modify (fun w =>
    withAccessStore (withClients (<[id := rec]> (clients (accessStore w))) (accessStore w)) w).

Definition getClient (id : string) : M (option ClientRecord) :=
  gets (fun w => clients (accessStore w) !! id).

Definition normalizeLegacyStatus (status : jsval) : string :=
  let s := JsString.toLowerCase (normalizeStr status) in
  if isEmpty s then "unverified"
  else if String.eqb s "unbanned" then "unverified"
  else if String.eqb s "banned" then "banned"
  else if String.eqb s "verified" then "verified"
  else if String.eqb s "unverified" then "unverified"
  else if String.eqb s "suspicious" then "suspicious"
  else "unverified".

Definition newClientRecord (t1 t2 : Z) : ClientRecord :=
  {| status := "unverified"; firstSeenAt := t1; lastSeenAt := t2;
     verifiedAt := 0; suspiciousAt := 0;
     ua := ""; platform := ""; language := ""; timezone := ""; screen := "";
     ipFirst := ""; ipLast := ""; ipLastSeenAt := 0;
     banMessage := "" |}.

(** Returns the reference to the record ([None] for [null]). *)
Definition ensureClientRecord (clientID : jsval) : M (option string) :=
  let id := normalizeStr clientID in
  if isEmpty id then ret None
  else
    let* existing := getClient id in
    match existing with
    | Some _ =>
        let* t := nowMs in
        updClient id (set_lastSeenAt t) ;;
        updClient id (fun r => set_status (normalizeLegacyStatus (JStr (status r))) r) ;;
        ret (Some id)
    | None =>
        let* t1 := nowMs in
        let* t2 := nowMs in
        putClient id (newClientRecord t1 t2) ;;
        saveAccess ;;
        ret (Some id)
    end.

Definition noDevice : Device :=
  {| dev_ua := JUndefined; dev_platform := JUndefined; dev_language := JUndefined;
     dev_timezone := JUndefined; dev_screen := JUndefined |}.

Definition recordClientTelemetry (req : Request) (clientID : jsval)
    (device : option Device) : M unit :=
  let* rec := ensureClientRecord clientID in
  match rec with
  | None => ret tt
  | Some rec =>
      let ip := getRequestIP req in
      let ua := formatUA (JStr (strOr (hdr_userAgent req) "")) in
      updClient rec (fun r =>
        if isEmpty (ipFirst r) && negb (isEmpty ip) then set_ipFirst ip r else r) ;;
      (if negb (isEmpty ip) then
         let* t := nowMs in updClient rec (set_ipLast ip t)
       else ret tt) ;;
      let d := match device with Some d => d | None => noDevice end in
      updClient rec (set_telemetry
        (formatUA (jsOr (dev_ua d) (JStr ua)))
        (clampStr (jsOr (dev_platform d) (JStr "")) 80)
        (clampStr (jsOr (dev_language d) (JStr "")) 40)
        (clampStr (jsOr (dev_timezone d) (JStr "")) 64)
        (clampStr (jsOr (dev_screen d) (JStr "")) 32)) ;;
      let* t := nowMs in
      updClient rec (set_lastSeenAt t) ;;
      saveAccess
  end.

Definition isDesktopish (rec : ClientRecord) : bool :=
  let ua := JsString.toLowerCase (ua rec) in
  let platform := JsString.toLowerCase (platform rec) in
  if JsString.includes platform "win" then true
  else if JsString.includes platform "mac" then true
  else if JsString.includes ua "windows" then true
  else if JsString.includes ua "mac os" then true
  else false.

Record IpBanDecision := {
  ib_banned : bool;
  ib_reason : string;
  ib_banMessage : string
}.

Definition ipBanDecision (ip : jsval) : M (option IpBanDecision) :=
  let x := normalizeStr ip in
  if isEmpty x then ret None
  else
    let* rec := gets (fun w => ipBans (accessStore w) !! x) in
    match rec with
    | None => ret None
    | Some rec =>
        ret (Some {| ib_banned := true; ib_reason := "ip_ban";
                     ib_banMessage := clampStr (JStr (ban_message rec)) 500 |})
    end.

(** A decision object; [d_status] and [d_banMessage] are [None] where the
    object has no such property. *)
Record Decision := {
  banned : bool;
  allowed : bool;
  reason : string;
  d_status : option string;
  d_banMessage : option string
}.

Definition computeAccessDecision (req : Request) (clientID : jsval) : M Decision :=
  let id := normalizeStr clientID in
  let ip := getRequestIP req in
  let* ipBan := ipBanDecision (JStr ip) in
  match ipBan with
  | Some ipBan =>
      ret {| banned := ib_banned ipBan; allowed := false; reason := ib_reason ipBan;
             d_status := None; d_banMessage := Some (ib_banMessage ipBan) |}
  | None =>
      if isEmpty id then
        let* locked := gets (fun w => lockdown (accessStore w)) in
        if locked then
          ret {| banned := true; allowed := false; reason := "missing_client_id";
                 d_status := None; d_banMessage := None |}
        else
          ret {| banned := false; allowed := true; reason := "missing_client_id_allowed";
                 d_status := None; d_banMessage := None |}
      else
        let* known := getClient id in
        match known with
        | None =>
            let* locked := gets (fun w => lockdown (accessStore w)) in
            if locked then
              ret {| banned := true; allowed := false; reason := "lockdown_unknown";
                     d_status := None; d_banMessage := None |}
            else
              ret {| banned := false; allowed := true; reason := "unknown_allowed";
                     d_status := Some "unverified"; d_banMessage := None |}
        | Some rec0 =>
            (* rec.status = normalizeLegacyStatus(rec.status): the write goes to
               the store, [rec] is the record as it reads from then on *)
            updClient id (fun r => set_status (normalizeLegacyStatus (JStr (status r))) r) ;;
            let rec := set_status (normalizeLegacyStatus (JStr (status rec0))) rec0 in
            if String.eqb (status rec) "banned" then
              ret {| banned := true; allowed := false; reason := "client_ban";
                     d_status := Some "banned";
                     d_banMessage := Some (clampStr (JStr (banMessage rec)) 500) |}
            else if String.eqb (status rec) "suspicious" then
              ret {| banned := false; allowed := true; reason := "client_suspicious";
                     d_status := Some "suspicious"; d_banMessage := None |}
            else if String.eqb (status rec) "unverified" && isDesktopish rec then
              updClient id (set_status "suspicious") ;;
              let* t := nowMs in
              updClient id (set_suspiciousAt t) ;;
              saveAccess ;;
              ret {| banned := false; allowed := true;
                     reason := "desktop_unverified_marked_suspicious";
                     d_status := Some "suspicious"; d_banMessage := None |}
            else
              let* locked := gets (fun w => lockdown (accessStore w)) in
              if locked then
                let st := normalizeLegacyStatus (JStr (status rec)) in
                if negb (String.eqb st "verified") then
                  ret {| banned := true; allowed := false;
                         reason := "lockdown_not_verified";
                         d_status := Some st; d_banMessage := None |}
                else
                  ret {| banned := false; allowed := true; reason := "lockdown_verified";
                         d_status := Some st; d_banMessage := None |}
              else
                ret {| banned := false; allowed := true; reason := "known_allowed";
                       d_status := Some (status rec); d_banMessage := None |}
        end
  end.

(** ** HTTP handlers *)

Record Config := {
  ADMIN_PIN : string;
  AUTH_PIN : string;
  UNBAN_PIN : string
}.

(** The JSON documents the handlers answer with. *)
Inductive Response :=
| RError (code : nat) (error : string)          (* status code, {ok:false, error} *)
| RThrown                                        (* an exception left the handler *)
| ROk                                            (* {ok:true} *)
| RState (l : Lockdown) (b : option Broadcast)   (* {ok, lockdown, broadcast} *)
| RHello (clientID status : string)              (* {ok, clientID, status} *)
| RAllowed (allowed : bool)                      (* {ok, allowed} *)
| RCheck (banned allowed lockdown : bool) (status reason banMessage : string)
| RStatus (status : string)                      (* {ok, status} *)
| RIp (ip : string) (banned : bool)              (* {ok, ip, banned} *)
| RAccessLockdown (lockdown : bool)              (* {ok, lockdown} *)
| RBroadcast (b : Broadcast)                     (* {ok, broadcast} *)
| RSiteLockdown (l : Lockdown).                  (* {ok, lockdown} *)

Section Handlers.

Variable cfg : Config.

Definition requirePin (req : Request) (next : M Response) : M Response :=
  let pin := strOr (hdr_adminPin req) "" in
  if isEmpty (ADMIN_PIN cfg) || negb (String.eqb pin (ADMIN_PIN cfg))
  then ret (RError 401 "Unauthorized")
  else next.

(** GET /health *)
Definition getHealth (req : Request) : M Response :=
  pruneExpiredBroadcast ;;
  ret ROk.

(** GET /api/state *)
Definition getState (req : Request) : M Response :=
  pruneExpiredBroadcast ;;
  let* s := gets state in
  ret (RState (site_lockdown s) (broadcast s)).

(** POST /api/hello *)
Definition postHello (req : Request) : M Response :=
  let clientID := normalizeStr (body_clientID req) in
  let device := body_device req in
  if isEmpty clientID then ret (RError 400 "clientID required")
  else
    recordClientTelemetry req (JStr clientID) device ;;
    let* rec := ensureClientRecord (JStr clientID) in
    match rec with
    | None => ret (RHello clientID "unverified")
    | Some rec =>
        let* r := getClient rec in
        match r with
        | Some r => ret (RHello clientID (normalizeLegacyStatus (JStr (status r))))
        | None => ret RThrown
        end
    end.

(** POST /api/auth *)
Definition postAuth (req : Request) : M Response :=
  let clientID := normalizeStr (body_clientID req) in
  let pinAttempt := normalizeStr (body_pinAttempt req) in
  (if negb (isEmpty clientID) then recordClientTelemetry req (JStr clientID) None
   else ret tt) ;;
  if isEmpty (AUTH_PIN cfg) then ret (RAllowed false)
  else
    let allowed := String.eqb pinAttempt (AUTH_PIN cfg) in
    (if allowed && negb (isEmpty clientID) then
       let* rec := ensureClientRecord (JStr clientID) in
       match rec with
       | Some rec =>
           updClient rec (set_status "verified") ;;
           let* t := nowMs in
           updClient rec (set_verifiedAt t) ;;
           let* t' := nowMs in
           updClient rec (set_lastSeenAt t') ;;
           saveAccess
       | None => ret tt
       end
     else ret tt) ;;
    ret (RAllowed allowed).

(** POST /api/check *)
Definition postCheck (req : Request) : M Response :=
  let clientID := normalizeStr (body_clientID req) in
  (if negb (isEmpty clientID) then recordClientTelemetry req (JStr clientID) None
   else ret tt) ;;
  let* decision := computeAccessDecision req (JStr clientID) in
  let* locked := gets (fun w => lockdown (accessStore w)) in
  ret (RCheck (banned decision) (allowed decision) locked
         (strOr (d_status decision) "unverified")
         (strOr (Some (reason decision)) "")
         (strOr (d_banMessage decision) "")).

(** POST /api/unban *)
Definition postUnban (req : Request) : M Response :=
  let clientID := normalizeStr (body_clientID req) in
  let pinAttempt := normalizeStr (body_pinAttempt req) in
  if isEmpty clientID then ret (RError 400 "clientID required")
  else
    recordClientTelemetry req (JStr clientID) None ;;
    if isEmpty (UNBAN_PIN cfg) then ret (RAllowed false)
    else if negb (String.eqb pinAttempt (UNBAN_PIN cfg)) then ret (RAllowed false)
    else
      let* rec := ensureClientRecord (JStr clientID) in
      (match rec with
       | Some rec =>
           updClient rec (set_status "unverified") ;;
           updClient rec (set_banMessage "") ;;
           let* t := nowMs in
           updClient rec (set_lastSeenAt t) ;;
           saveAccess
       | None => ret tt
       end) ;;
      ret (RAllowed true).

(** The answer [{ok:true, status: rec.status}] of the admin routes. *)
Definition respondStatus (rec : string) (f : string -> string) : M Response :=
  let* r := getClient rec in
  match r with
  | Some r => ret (RStatus (f (status r)))
  | None => ret RThrown
  end.

(** POST /api/admin/verify *)
Definition adminVerify (req : Request) : M Response :=
  requirePin req (
    let clientID := normalizeStr (body_clientID req) in
    if isEmpty clientID then ret (RError 400 "clientID required")
    else
      let* rec := ensureClientRecord (JStr clientID) in
      match rec with
      | None => ret (RError 400 "clientID required")
      | Some rec =>
          updClient rec (set_status "verified") ;;
          let* t := nowMs in
          updClient rec (set_verifiedAt t) ;;
          let* t' := nowMs in
          updClient rec (set_lastSeenAt t') ;;
          saveAccess ;;
          respondStatus rec (fun s => s)
      end).

(** POST /api/admin/suspicious *)
Definition adminSuspicious (req : Request) : M Response :=
  requirePin req (
    let clientID := normalizeStr (body_clientID req) in
    if isEmpty clientID then ret (RError 400 "clientID required")
    else
      let* rec := ensureClientRecord (JStr clientID) in
      match rec with
      | None => ret (RError 400 "clientID required")
      | Some rec =>
          updClient rec (set_status "suspicious") ;;
          let* t := nowMs in
          updClient rec (set_suspiciousAt t) ;;
          let* t' := nowMs in
          updClient rec (set_lastSeenAt t') ;;
          saveAccess ;;
          respondStatus rec (fun s => s)
      end).

(** POST /api/admin/clear-suspicious *)
Definition adminClearSuspicious (req : Request) : M Response :=
  requirePin req (
    let clientID := normalizeStr (body_clientID req) in
    if isEmpty clientID then ret (RError 400 "clientID required")
    else
      let* rec := ensureClientRecord (JStr clientID) in
      match rec with
      | None => ret (RError 400 "clientID required")
      | Some rec =>
          let* r := getClient rec in
          match r with
          | None => ret RThrown
          | Some r =>
              (if String.eqb (normalizeLegacyStatus (JStr (status r))) "suspicious" then
                 updClient rec (set_status "unverified") ;;
                 let* t := nowMs in
                 updClient rec (set_lastSeenAt t) ;;
                 saveAccess
               else ret tt) ;;
              respondStatus rec (fun s => normalizeLegacyStatus (JStr s))
          end
      end).

(** POST /api/admin/ban *)
Definition adminBan (req : Request) : M Response :=
  requirePin req (
    let clientID := normalizeStr (body_clientID req) in
    let banMessage := clampStr (body_banMessage req) 500 in
    if isEmpty clientID then ret (RError 400 "clientID required")
    else
      let* rec := ensureClientRecord (JStr clientID) in
      match rec with
      | None => ret RThrown
      | Some rec =>
          updClient rec (set_status "banned") ;;
          updClient rec (set_banMessage banMessage) ;;
          let* t := nowMs in
          updClient rec (set_lastSeenAt t) ;;
          saveAccess ;;
          respondStatus rec (fun s => s)
      end).

(** POST /api/admin/unban *)
Definition adminUnban (req : Request) : M Response :=
  requirePin req (
    let clientID := normalizeStr (body_clientID req) in
    if isEmpty clientID then ret (RError 400 "clientID required")
    else
      let* rec := ensureClientRecord (JStr clientID) in
      match rec with
      | None => ret RThrown
      | Some rec =>
          updClient rec (set_status "unverified") ;;
          updClient rec (set_banMessage "") ;;
          let* t := nowMs in
          updClient rec (set_lastSeenAt t) ;;
          saveAccess ;;
          respondStatus rec (fun s => s)
      end).

(** POST /api/admin/ban-ip *)
Definition adminBanIp (req : Request) : M Response :=
  requirePin req (
    let ip := normalizeStr (body_ip req) in
    let banMessage := clampStr (body_banMessage req) 500 in
    if isEmpty ip then ret (RError 400 "ip required")
    else
      let* existing := gets (fun w => ipBans (accessStore w) !! ip) in
      let* createdAt :=
        match existing with
        | Some e => if negb (ban_createdAt e =? 0) then ret (ban_createdAt e) else nowMs
        | None => nowMs
        end in
      let* now := nowMs in
      modify (fun w =>
        withAccessStore
          (withIpBans
             (<[ip := {| ban_message := banMessage; ban_createdAt := createdAt;
                         ban_updatedAt := now |}]> (ipBans (accessStore w)))
             (accessStore w)) w) ;;
      saveAccess ;;
      ret (RIp ip true)).

(** POST /api/admin/unban-ip *)
Definition adminUnbanIp (req : Request) : M Response :=
  requirePin req (
    let ip := normalizeStr (body_ip req) in
    if isEmpty ip then ret (RError 400 "ip required")
    else
      let* existing := gets (fun w => ipBans (accessStore w) !! ip) in
      (match existing with
       | Some _ =>
           modify (fun w =>
             withAccessStore
               (withIpBans (delete ip (ipBans (accessStore w))) (accessStore w)) w) ;;
           saveAccess
       | None => ret tt
       end) ;;
      ret (RIp ip false)).

(** POST /api/admin/lockdown *)
Definition adminLockdown (req : Request) : M Response :=
  requirePin req (
    let enabled := truthy (body_enabled req) in
    modify (fun w => withAccessStore (withLockdown enabled (accessStore w)) w) ;;
    saveAccess ;;
    let* l := gets (fun w => lockdown (accessStore w)) in
    ret (RAccessLockdown l)).

(** POST /api/broadcast *)
Definition postBroadcast (req : Request) : M Response :=
  requirePin req (
    let msg := match body_message req with
               | JStr s => JsString.trim s
               | _ => ""
               end in
    if isEmpty msg then ret (RError 400 "message required")
    else
      let* createdAt := nowMs in
      let expiresAt := createdAt + 24 * 60 * 60 * 1000 in
      let* id := makeId in
      let b := {| b_id := id; b_message := msg; b_createdAt := createdAt;
                  b_expiresAt := JNum expiresAt |} in
      modify (fun w => withState (withBroadcast (Some b) (state w)) w) ;;
      saveState ;;
      broadcastWS (WsBroadcast b) ;;
      ret (RBroadcast b)).

Definition setSiteLockdown (on : bool) : M Response :=
  let* t := nowMs in
  modify (fun w =>
    withState (withSiteLockdown {| enabled := on; updatedAt := t |} (state w)) w) ;;
  saveState ;;
  let* l := gets (fun w => site_lockdown (state w)) in
  broadcastWS (WsLockdown on (updatedAt l)) ;;
  ret (RSiteLockdown l).

(** POST /api/lockdown *)
Definition postLockdown (req : Request) : M Response :=
  requirePin req (setSiteLockdown true).

(** POST /api/clear-lockdown *)
Definition postClearLockdown (req : Request) : M Response :=
  requirePin req (setSiteLockdown false).

(** A new subscription on the realtime channel: the snapshot sent to it. *)
Definition wsConnection : M WsMessage :=
  pruneExpiredBroadcast ;;
  let* s := gets state in
  ret (WsState (site_lockdown s) (broadcast s)).

End Handlers.

(** ** Vocabulary of the statements *)

(** A string that does not start with white space. *)
Definition headNotSpace (s : string) : Prop :=
  match s with
  | EmptyString => True
  | String c _ => JsString.isWhiteSpace c = false
  end.

(** The four status values of the data model. *)
Definition canonical (s : string) : Prop :=
  s = "unverified" \/ s = "verified" \/ s = "suspicious" \/ s = "banned".

(** The ban record of the request's source address, if it has one. *)
Definition sourceBan (req : Request) (w : World) : option IPBanRecord :=
  if isEmpty (getRequestIP req) then None
  else ipBans (accessStore w) !! getRequestIP req.

Definition decide_ (b a : bool) (why : string) (st msg : option string) : Decision :=
  {| banned := b; allowed := a; reason := why; d_status := st; d_banMessage := msg |}.

(** The world in which the record under [id] has been replaced by [r]. *)
Definition storeClient (id : string) (r : ClientRecord) (w : World) : World :=
  withAccessStore (withClients (<[id := r]> (clients (accessStore w))) (accessStore w)) w.

(** The world after the heuristic has marked the record [r] under [id]:
    status and stamp written, one reading of the clock consumed, the store
    written to its file. *)
Definition markSuspicious (id : string) (r : ClientRecord) (w : World) : World :=
  let r' := set_suspiciousAt (clock w (ticks w)) (set_status "suspicious" r) in
  let a := withClients (<[id := r']> (clients (accessStore w))) (accessStore w) in
  withAccessFile (a :: accessFile w) (withAccessStore a (withTicks (S (ticks w)) w)).

(** Whether the user agent a request is recorded with is desktop-class:
    [isDesktopish] on the telemetry a first request leaves, when it carries
    no device payload. *)
Definition desktopClassAgent (req : Request) : bool :=
  isDesktopish
    (set_telemetry (formatUA (JStr (formatUA (JStr (strOr (hdr_userAgent req) "")))))
       "" "" "" "" (newClientRecord 0 0)).

(** A run of evaluations, one per request and token. *)
Fixpoint evaluateAll (rs : list (Request * jsval)) : M unit :=
  match rs with
  | [] => ret tt
  | (req, clientID) :: rs => computeAccessDecision req clientID ;; evaluateAll rs
  end.


(** The world after [pruneExpiredBroadcast] has found the broadcast
    expired: one reading of the clock consumed, the broadcast cleared, the
    cleared state written to its file. *)
Definition expired (w : World) : World :=
  let s := withBroadcast None (state w) in
  withStateFile (s :: stateFile w) (withState s (withTicks (S (ticks w)) w)).


(** ** Sample worlds and requests *)

Module Sample.

Definition emptyStore : AccessStore :=
  {| lockdown := false; clients := ∅; ipBans := ∅ |}.

Definition initialState : SiteState :=
  {| site_lockdown := {| enabled := false; updatedAt := 0 |}; broadcast := None |}.

(** The process right after start with no files on disk; the clock reads
    1700000000000 and advances by one millisecond per reading. *)
Definition world0 : World :=
  {| accessStore := emptyStore; accessFile := []; state := initialState;
     stateFile := []; wsSent := [];
     clock := fun n => 1700000000000 + Z.of_nat n; ticks := 0;
     random := fun _ => "k3j2h1g0"; draws := 0 |}.

(** The same process with a clock that advances by a little over
    twelve hours per reading. *)
Definition slowWorld : World :=
  {| accessStore := emptyStore; accessFile := []; state := initialState;
     stateFile := []; wsSent := [];
     clock := fun n => 1700000000000 + 43200001 * Z.of_nat n; ticks := 0;
     random := fun _ => "k3j2h1g0"; draws := 0 |}.

Definition cfg : Config :=
  {| ADMIN_PIN := "admin-pin"; AUTH_PIN := "1234"; UNBAN_PIN := "unban-pin" |}.

Definition request (userAgent adminPin : option string) (clientID pinAttempt : jsval)
    (ip banMessage enabled message : jsval) : Request :=
  {| req_ip := Some "10.0.0.7"; req_remoteAddress := Some "10.0.0.7";
     hdr_userAgent := userAgent; hdr_adminPin := adminPin;
     body_clientID := clientID; body_pinAttempt := pinAttempt; body_device := None;
     body_ip := ip; body_banMessage := banMessage; body_enabled := enabled;
     body_message := message |}.

(** POST /api/check {"clientID": token} *)
Definition check (userAgent : string) (token : string) : Request :=
  request (Some userAgent) None (JStr token) JUndefined
    JUndefined JUndefined JUndefined JUndefined.

(** POST /api/auth {"clientID": token, "pinAttempt": pin} *)
Definition auth (token pin : string) : Request :=
  request (Some "Mozilla/5.0 (Linux; Android 14)") None
    (JStr token) (JStr pin) JUndefined JUndefined JUndefined JUndefined.

(** POST /api/admin/lockdown {"enabled": true}, with the admin pin *)
Definition lockdownOn : Request :=
  request None (Some "admin-pin") JUndefined JUndefined
    JUndefined JUndefined (JBool true) JUndefined.



(** POST /api/broadcast {"message": msg}, with the admin pin *)
Definition broadcastReq (msg : string) : Request :=
  request None (Some "admin-pin") JUndefined JUndefined
    JUndefined JUndefined JUndefined (JStr msg).

Definition plain : Request :=
  request None None JUndefined JUndefined JUndefined JUndefined JUndefined JUndefined.

Definition client (st : string) (userAgent : string) : ClientRecord :=
  {| status := st; firstSeenAt := 1699999000000; lastSeenAt := 1699999900000;
     verifiedAt := 0; suspiciousAt := 0;
     ua := userAgent; platform := ""; language := "en-US";
     timezone := "Europe/Paris"; screen := "820x1180";
     ipFirst := "10.0.0.7"; ipLast := "10.0.0.7"; ipLastSeenAt := 1699999900000;
     banMessage := "" |}.

(** A world whose store holds one client, "abc". *)
Definition withClient (locked : bool) (r : ClientRecord) : World :=
  withAccessStore
    {| lockdown := locked; clients := {[ "abc" := r ]}; ipBans := ∅ |} world0.

(** A world in which the address 10.0.0.7 is banned and "abc" is verified. *)
Definition withIpBan (msg : string) : World :=
  withAccessStore
    {| lockdown := false;
       clients := {[ "abc" := client "verified" "Mozilla/5.0 (iPad)" ]};
       ipBans := {[ "10.0.0.7" := {| ban_message := msg;
                                     ban_createdAt := 1699990000000;
                                     ban_updatedAt := 1699990000000 |} ]} |}
    world0.

End Sample.

(** ** The earlier revision of the access store (server.js)

    The revision before the IP bans and the verification statuses: a
    record is "unbanned" or "banned", the decision reads the token only
    and /api/check answers {ok, banned, allowed, lockdown}.  It shares the
    store, the file and the helpers above. *)

Module Legacy.

Definition newClientRecord (t1 t2 : Z) : ClientRecord :=
  {| status := "unbanned"; firstSeenAt := t1; lastSeenAt := t2;
     verifiedAt := 0; suspiciousAt := 0;
     ua := ""; platform := ""; language := ""; timezone := ""; screen := "";
     ipFirst := ""; ipLast := ""; ipLastSeenAt := 0;
     banMessage := "" |}.

Definition ensureClientRecord (clientID : jsval) : M (option string) :=
  let id := normalizeStr clientID in
  if isEmpty id then ret None
  else
    let* existing := getClient id in
    match existing with
    | Some _ =>
        let* t := nowMs in
        updClient id (set_lastSeenAt t) ;;
        ret (Some id)
    | None =>
        let* t1 := nowMs in
        let* t2 := nowMs in
        putClient id (newClientRecord t1 t2) ;;
        saveAccess ;;
        ret (Some id)
    end.

Record Decision := {
  banned : bool;
  allowed : bool;
  reason : string
}.

Definition computeAccessDecision (clientID : jsval) : M Decision :=
  let id := normalizeStr clientID in
  if isEmpty id then
    let* locked := gets (fun w => lockdown (accessStore w)) in
    if locked then
      ret {| banned := true; allowed := false; reason := "missing_client_id" |}
    else
      ret {| banned := false; allowed := true; reason := "missing_client_id_allowed" |}
  else
    let* rec := getClient id in
    let isKnown := match rec with Some _ => true | None => false end in
    if match rec with Some r => String.eqb (status r) "banned" | None => false end then
      ret {| banned := true; allowed := false; reason := "known_banned" |}
    else
      let* locked := gets (fun w => lockdown (accessStore w)) in
      if locked then
        if negb isKnown then
          ret {| banned := true; allowed := false; reason := "lockdown_unknown" |}
        else
          ret {| banned := false; allowed := true; reason := "lockdown_known_unbanned" |}
      else
        ret {| banned := false; allowed := true;
               reason := if isKnown then "known_unbanned" else "unknown_allowed" |}.

(** The answer of /api/check: {ok: true, banned, allowed, lockdown}. *)
Record CheckAnswer := {
  c_banned : bool;
  c_allowed : bool;
  c_lockdown : bool
}.

(** POST /api/check *)
Definition postCheck (req : Request) : M CheckAnswer :=
  let clientID := normalizeStr (body_clientID req) in
  (if negb (isEmpty clientID) then ensureClientRecord (JStr clientID) ;; ret tt
   else ret tt) ;;
  let* decision := computeAccessDecision (JStr clientID) in
  let* locked := gets (fun w => lockdown (accessStore w)) in
  ret {| c_banned := banned decision; c_allowed := allowed decision;
         c_lockdown := locked |}.

End Legacy.


(** ** Vocabulary of the further properties *)


(** A string made of white space only. *)
Fixpoint allWhiteSpace (s : string) : bool :=
  match s with
  | EmptyString => true
  | String c r => JsString.isWhiteSpace c && allWhiteSpace r
  end.

(** The record [ensureClientRecord] leaves under [id]: the stored one with
    [lastSeenAt] refreshed and the status normalised, or a new one. *)
Definition ensuredRecord (w : World) (id : string) : ClientRecord :=
  match clients (accessStore w) !! id with
  | Some rec =>
      set_status (normalizeLegacyStatus (JStr (status rec)))
        (set_lastSeenAt (clock w (ticks w)) rec)
  | None => newClientRecord (clock w (ticks w)) (clock w (S (ticks w)))
  end.

(** The number of clock readings [ensureClientRecord] takes. *)
Definition ensureTicks (w : World) (id : string) : nat :=
  match clients (accessStore w) !! id with
  | Some _ => 1%nat
  | None => 2%nat
  end.

(** The record [recordClientTelemetry] leaves under [id]. *)
Definition seenRecord (req : Request) (device : option Device) (w : World)
    (id : string) : ClientRecord :=
  let r0 := ensuredRecord w id in
  let n := (ticks w + ensureTicks w id)%nat in
  let ip := getRequestIP req in
  let r1 := if isEmpty (ipFirst r0) && negb (isEmpty ip) then set_ipFirst ip r0 else r0 in
  let r2 := if negb (isEmpty ip) then set_ipLast ip (clock w n) r1 else r1 in
  let n2 := if negb (isEmpty ip) then S n else n in
  let d := match device with Some d => d | None => noDevice end in
  let r3 :=
    set_telemetry
      (formatUA (jsOr (dev_ua d) (JStr (formatUA (JStr (strOr (hdr_userAgent req) ""))))))
      (clampStr (jsOr (dev_platform d) (JStr "")) 80)
      (clampStr (jsOr (dev_language d) (JStr "")) 40)
      (clampStr (jsOr (dev_timezone d) (JStr "")) 64)
      (clampStr (jsOr (dev_screen d) (JStr "")) 32) r2 in
  set_lastSeenAt (clock w n2) r3.

(** The status and the ban message the store holds for a token, as the
    handlers read them: normalised, and [unverified] with no message for a
    token without a record. *)
Definition knownStatus (w : World) (id : string) : string :=
  match clients (accessStore w) !! id with
  | Some rec => normalizeLegacyStatus (JStr (status rec))
  | None => "unverified"
  end.

Definition knownBanMessage (w : World) (id : string) : string :=
  match clients (accessStore w) !! id with
  | Some rec => banMessage rec
  | None => ""
  end.

(** [w'] differs from [w] at most in the record stored under [id], which
    it still has if [w] had it, in the access file and in the clock
    readings consumed. *)
Definition sameExcept (id : string) (w w' : World) : Prop :=
  (forall k, k <> id ->
     clients (accessStore w') !! k = clients (accessStore w) !! k) /\
  (is_Some (clients (accessStore w) !! id) ->
   is_Some (clients (accessStore w') !! id)) /\
  ipBans (accessStore w') = ipBans (accessStore w) /\
  lockdown (accessStore w') = lockdown (accessStore w) /\
  state w' = state w /\
  stateFile w' = stateFile w /\
  wsSent w' = wsSent w /\
  clock w' = clock w.

(** A computation that touches the record under [id] only, and whose
    result satisfies [P]. *)
Definition touches {A} (id : string) (P : A -> Prop) (m : M A) : Prop :=
  forall w, sameExcept id w (snd (m w)) /\ P (fst (m w)).

(** The routes that take a client token in the body. *)
Definition clientRoutes (cfg : Config) : list (Request -> M Response) :=
  [ postHello; postAuth cfg; postCheck; postUnban cfg;
    adminVerify cfg; adminSuspicious cfg; adminClearSuspicious cfg;
    adminBan cfg; adminUnban cfg ].

(** The routes on the site state, and the routes on the access store that
    take no client token. *)
Definition siteRoutes (cfg : Config) : list (Request -> M Response) :=
  [ getHealth; getState; postBroadcast cfg; postLockdown cfg; postClearLockdown cfg ].

Definition addressRoutes (cfg : Config) : list (Request -> M Response) :=
  [ adminBanIp cfg; adminUnbanIp cfg; adminLockdown cfg ].

(** The stored broadcast, if any, is not due for pruning at the next clock
    reading: there is none, its [expiresAt] is not a number, or it lies in
    the future. *)
Definition live (w : World) : Prop :=
  match broadcast (state w) with
  | Some b =>
      match b_expiresAt b with
      | JNum e => clock w (ticks w) < e
      | _ => True
      end
  | None => True
  end.

(** The body of a broadcast request carries no message: the field is not a
    string, or it is white space only. *)
Definition blankMessage (v : jsval) : bool :=
  match v with
  | JStr m => allWhiteSpace m
  | _ => true
  end.

(** * Properties *)

(** ** Strings *)

Module JsStringFacts.
Import JsString.

Lemma trimStart_head s : headNotSpace (trimStart s).
Proof.
  induction s as [|c r IH]; simpl; [exact I|].
  destruct (isWhiteSpace c) eqn:E; [exact IH|exact E].
Qed.

Lemma trimStart_fixed s : headNotSpace s -> trimStart s = s.
Proof. destruct s as [|c r]; simpl; [reflexivity|]. intros ->. reflexivity. Qed.

Lemma trimEnd_head s : headNotSpace s -> headNotSpace (trimEnd s).
Proof.
  destruct s as [|c r]; simpl; [auto|]. intros E.
  destruct (trimEnd r); [rewrite E|]; simpl; exact E.
Qed.

Lemma trimEnd_idem s : trimEnd (trimEnd s) = trimEnd s.
Proof.
  induction s as [|c r IH]; simpl; [reflexivity|].
  destruct (trimEnd r) as [|c' r'] eqn:E.
  - destruct (isWhiteSpace c) eqn:W; simpl; rewrite ?W; reflexivity.
  - change (trimEnd (String c (String c' r')) = String c (String c' r')).
    cbn [trimEnd] in IH |- *.
    destruct (match trimEnd r' with
              | "" => if isWhiteSpace c' then "" else String c' ""
              | String a s => String c' (String a s)
              end) eqn:E'; [discriminate IH|].
    rewrite IH. reflexivity.
Qed.

Lemma trim_idem s : trim (trim s) = trim s.
Proof.
  unfold trim.
  rewrite (trimStart_fixed (trimEnd (trimStart s))).
  - apply trimEnd_idem.
  - apply trimEnd_head, trimStart_head.
Qed.

End JsStringFacts.

Lemma normalizeStr_idem x : normalizeStr (JStr (normalizeStr x)) = normalizeStr x.
Proof.
  destruct x; simpl; try reflexivity. apply JsStringFacts.trim_idem.
Qed.

Lemma isEmpty_true s : isEmpty s = true <-> s = "".
Proof. unfold isEmpty. apply String.eqb_eq. Qed.

Lemma isEmpty_false s : isEmpty s = false <-> s <> "".
Proof. unfold isEmpty. apply String.eqb_neq. Qed.

Lemma getRequestIP_normal req : normalizeStr (JStr (getRequestIP req)) = getRequestIP req.
Proof. unfold getRequestIP. apply normalizeStr_idem. Qed.

(** A message that is already trimmed and within the bound passes through
    [clampStr] as it is. *)
Lemma clampStr_fixed s n :
  JsString.trim s = s -> (String.length s <= n)%nat -> clampStr (JStr s) n = s.
Proof.
  intros Ht Hl. unfold clampStr. simpl. rewrite Ht.
  destruct (isEmpty s) eqn:E.
  - apply isEmpty_true in E. congruence.
  - apply Nat.leb_le in Hl. rewrite Hl. reflexivity.
Qed.

(** ** Records and maps *)

Lemma withAccessStore_same w : withAccessStore (accessStore w) w = w.
Proof. destruct w; reflexivity. Qed.

Lemma withClients_same a : withClients (clients a) a = a.
Proof. destruct a; reflexivity. Qed.

Lemma set_status_same r : set_status (status r) r = r.
Proof. destruct r; reflexivity. Qed.

Lemma alter_lookup {A} (f : A -> A) (m : gmap string A) i x :
  m !! i = Some x -> alter f i m = <[i := f x]> m.
Proof.
  intros H. rewrite <- (insert_id m i x H) at 1. apply alter_insert_eq.
Qed.

Lemma storeClient_same id r w :
  clients (accessStore w) !! id = Some r -> storeClient id r w = w.
Proof.
  intros H. unfold storeClient. rewrite insert_id by exact H.
  rewrite withClients_same. apply withAccessStore_same.
Qed.

(** ** Status values *)

Lemma normalizeLegacyStatus_canonical v : canonical (normalizeLegacyStatus v).
Proof.
  unfold normalizeLegacyStatus, canonical.
  repeat match goal with |- context [if ?b then _ else _] => destruct b end; auto.
Qed.

Lemma normalizeLegacyStatus_fixed s :
  canonical s -> normalizeLegacyStatus (JStr s) = s.
Proof. intros [-> | [-> | [-> | ->]]]; reflexivity. Qed.

Lemma normalizeLegacyStatus_idem v :
  normalizeLegacyStatus (JStr (normalizeLegacyStatus v)) = normalizeLegacyStatus v.
Proof. apply normalizeLegacyStatus_fixed, normalizeLegacyStatus_canonical. Qed.

Lemma isDesktopish_set_status s r : isDesktopish (set_status s r) = isDesktopish r.
Proof. reflexivity. Qed.

(** ** Running the handlers *)

(** Symbolic execution of the monadic code: unfold the primitives and
    project the fields of the worlds built on the way. *)
Ltac run_prims :=
  unfold getClient, updClient, putClient, saveAccess, saveState, broadcastWS,
    nowMs, gets, modify, bind, ret.
Ltac run_proj :=
  cbn [fst snd accessStore accessFile state stateFile wsSent clock ticks random draws
       withAccessStore withAccessFile withState withStateFile withWsSent withTicks
       withDraws lockdown clients ipBans withLockdown withClients withIpBans
       site_lockdown broadcast withBroadcast withSiteLockdown].
Ltac run := run_prims; run_proj.

(** ** The steps of the decision *)

Lemma ipBanDecision_source req w :
  ipBanDecision (JStr (getRequestIP req)) w =
    (match sourceBan req w with
     | Some rec => Some {| ib_banned := true; ib_reason := "ip_ban";
                           ib_banMessage := clampStr (JStr (ban_message rec)) 500 |}
     | None => None
     end, w).
Proof.
  unfold ipBanDecision, sourceBan. rewrite getRequestIP_normal.
  destruct (isEmpty (getRequestIP req)); [reflexivity|].
  unfold bind, gets, ret.
  destruct (ipBans (accessStore w) !! getRequestIP req); reflexivity.
Qed.

Lemma computeAccessDecision_ip_banned req cid w rec :
  sourceBan req w = Some rec ->
  computeAccessDecision req cid w =
    (decide_ true false "ip_ban" None (Some (clampStr (JStr (ban_message rec)) 500)), w).
Proof.
  intros H. unfold computeAccessDecision. unfold bind at 1.
  rewrite ipBanDecision_source, H. reflexivity.
Qed.

Lemma computeAccessDecision_no_token req cid w :
  sourceBan req w = None ->
  normalizeStr cid = "" ->
  computeAccessDecision req cid w =
    if lockdown (accessStore w)
    then (decide_ true false "missing_client_id" None None, w)
    else (decide_ false true "missing_client_id_allowed" None None, w).
Proof.
  intros H E. unfold computeAccessDecision. unfold bind at 1.
  rewrite ipBanDecision_source, H, E.
  unfold bind, gets, ret. cbn [isEmpty String.eqb].
  destruct (lockdown (accessStore w)); reflexivity.
Qed.

Lemma computeAccessDecision_known req cid w rec :
  sourceBan req w = None ->
  normalizeStr cid <> "" ->
  clients (accessStore w) !! normalizeStr cid = Some rec ->
  let id := normalizeStr cid in
  let st := normalizeLegacyStatus (JStr (status rec)) in
  let w1 := storeClient id (set_status st rec) w in
  computeAccessDecision req cid w =
    if String.eqb st "banned" then
      (decide_ true false "client_ban" (Some "banned")
         (Some (clampStr (JStr (banMessage rec)) 500)), w1)
    else if String.eqb st "suspicious" then
      (decide_ false true "client_suspicious" (Some "suspicious") None, w1)
    else if String.eqb st "unverified" && isDesktopish rec then
      (decide_ false true "desktop_unverified_marked_suspicious" (Some "suspicious") None,
       markSuspicious id (set_status st rec) w)
    else if lockdown (accessStore w) then
      if String.eqb st "verified"
      then (decide_ false true "lockdown_verified" (Some st) None, w1)
      else (decide_ true false "lockdown_not_verified" (Some st) None, w1)
    else (decide_ false true "known_allowed" (Some st) None, w1).
Proof.
  intros Hip Hne Hl id st w1. subst w1.
  unfold computeAccessDecision.
  unfold bind at 1.
  rewrite ipBanDecision_source, Hip.
  apply isEmpty_false in Hne. rewrite Hne.
  run. rewrite Hl.
  rewrite (alter_lookup _ _ _ _ Hl).
  fold id. fold st. cbn [status set_status banMessage].
  rewrite isDesktopish_set_status.
  unfold storeClient, markSuspicious, decide_.
  destruct (String.eqb st "banned"); [reflexivity|].
  destruct (String.eqb st "suspicious"); [reflexivity|].
  destruct (String.eqb st "unverified" && isDesktopish rec).
  - run_proj.
    rewrite !alter_insert_eq. reflexivity.
  - run_proj. destruct (lockdown (accessStore w)); [|reflexivity].
    assert (normalizeLegacyStatus (JStr st) = st) as Hst
      by apply normalizeLegacyStatus_idem.
    rewrite !Hst.
    destruct (String.eqb st "verified"); reflexivity.
Qed.

Lemma computeAccessDecision_unknown req cid w :
  sourceBan req w = None ->
  normalizeStr cid <> "" ->
  clients (accessStore w) !! normalizeStr cid = None ->
  computeAccessDecision req cid w =
    if lockdown (accessStore w)
    then (decide_ true false "lockdown_unknown" None None, w)
    else (decide_ false true "unknown_allowed" (Some "unverified") None, w).
Proof.
  intros Hip Hne Hl.
  unfold computeAccessDecision.
  unfold bind at 1.
  rewrite ipBanDecision_source, Hip.
  apply isEmpty_false in Hne. rewrite Hne.
  run. rewrite Hl.
  destruct (lockdown (accessStore w)); reflexivity.
Qed.

(** Whatever the request, an evaluation leaves the world as it was, or
    writes back the normalised status of the evaluated client, or marks it
    suspicious; the last only for a client that counts as unverified and
    whose telemetry is desktop-class. *)
Lemma computeAccessDecision_effect req cid w :
  let w' := snd (computeAccessDecision req cid w) in
  w' = w \/
  exists rec, clients (accessStore w) !! normalizeStr cid = Some rec /\
    let st := normalizeLegacyStatus (JStr (status rec)) in
    (w' = storeClient (normalizeStr cid) (set_status st rec) w \/
     (st = "unverified" /\ isDesktopish rec = true /\
      w' = markSuspicious (normalizeStr cid) (set_status st rec) w)).
Proof.
  intros w'. subst w'.
  destruct (sourceBan req w) as [b|] eqn:Hip.
  { left. rewrite (computeAccessDecision_ip_banned _ _ _ _ Hip). reflexivity. }
  destruct (String.eqb_spec (normalizeStr cid) "") as [E|E].
  { left. rewrite computeAccessDecision_no_token by assumption.
    destruct (lockdown (accessStore w)); reflexivity. }
  destruct (clients (accessStore w) !! normalizeStr cid) as [rec|] eqn:Hl.
  - right. exists rec. split; [reflexivity|].
    rewrite (computeAccessDecision_known _ _ _ _ Hip E Hl).
    cbv zeta.
    destruct (String.eqb _ "banned"); [left; reflexivity|].
    destruct (String.eqb _ "suspicious"); [left; reflexivity|].
    destruct (String.eqb_spec (normalizeLegacyStatus (JStr (status rec))) "unverified")
      as [Eu|Eu]; cbn [andb].
    + destruct (isDesktopish rec) eqn:Ed.
      * right. auto.
      * left. destruct (lockdown (accessStore w)); [|reflexivity].
        destruct (String.eqb _ "verified"); reflexivity.
    + left. destruct (lockdown (accessStore w)); [|reflexivity].
      destruct (String.eqb _ "verified"); reflexivity.
  - left. rewrite computeAccessDecision_unknown by assumption.
    destruct (lockdown (accessStore w)); reflexivity.
Qed.

(** What one evaluation does to the record stored under any key [k]. *)
Lemma computeAccessDecision_client req cid w k rec :
  clients (accessStore w) !! k = Some rec ->
  exists rec', clients (accessStore (snd (computeAccessDecision req cid w))) !! k = Some rec' /\
    (rec' = rec \/
     (k = normalizeStr cid /\
      rec' = set_status (normalizeLegacyStatus (JStr (status rec))) rec) \/
     (k = normalizeStr cid /\
      normalizeLegacyStatus (JStr (status rec)) = "unverified" /\
      isDesktopish rec = true /\
      rec' = set_suspiciousAt (clock w (ticks w)) (set_status "suspicious" rec))).
Proof.
  intros Hk.
  destruct (computeAccessDecision_effect req cid w) as [-> | (r & Hr & [-> | (Hu & Hd & ->)])].
  - eauto.
  - unfold storeClient. run_proj.
    destruct (decide (normalizeStr cid = k)) as [<- | Hne].
    + rewrite lookup_insert_eq. assert (r = rec) as -> by congruence.
      eexists; split; [reflexivity|]. right; left. split; reflexivity.
    + rewrite lookup_insert_ne by exact Hne. eauto.
  - unfold markSuspicious. run_proj.
    destruct (decide (normalizeStr cid = k)) as [<- | Hne].
    + rewrite lookup_insert_eq. assert (r = rec) as -> by congruence.
      eexists; split; [reflexivity|]. right; right.
      repeat split; try assumption; reflexivity.
    + rewrite lookup_insert_ne by exact Hne. eauto.
Qed.

Lemma suspicious_is_kept req cid w k rec :
  clients (accessStore w) !! k = Some rec ->
  status rec = "verified" \/ status rec = "suspicious" \/ status rec = "banned" ->
  clients (accessStore (snd (computeAccessDecision req cid w))) !! k = Some rec.
Proof.
  intros Hk Hs.
  destruct (computeAccessDecision_client req cid w k rec Hk)
    as (rec' & Hk' & [-> | [(_ & ->) | (_ & Hu & _)]]).
  - exact Hk'.
  - rewrite Hk'. f_equal.
    rewrite normalizeLegacyStatus_fixed; [apply set_status_same|].
    unfold canonical. tauto.
  - exfalso. destruct Hs as [E | [E | E]]; rewrite E in Hu; discriminate Hu.
Qed.

Lemma evaluateAll_keeps_suspicious rs : forall w k rec,
  clients (accessStore w) !! k = Some rec ->
  status rec = "suspicious" ->
  clients (accessStore (snd (evaluateAll rs w))) !! k = Some rec.
Proof.
  induction rs as [|[req cid] rs IH]; intros w k rec Hk Hs; [exact Hk|].
  cbn [evaluateAll]. unfold bind.
  pose proof (suspicious_is_kept req cid w k rec Hk (or_intror (or_introl Hs))) as H1.
  destruct (computeAccessDecision req cid w) as [d w1]. apply IH; assumption.
Qed.

(** What the lockdown check does decide: under access-lockdown an allowed
    request comes from a known client that counts as verified, or as
    suspicious, or as unverified with desktop-class telemetry. *)
Lemma lockdown_allowed_cases req cid w :
  lockdown (accessStore w) = true ->
  allowed (fst (computeAccessDecision req cid w)) = true ->
  exists rec, clients (accessStore w) !! normalizeStr cid = Some rec /\
    (normalizeLegacyStatus (JStr (status rec)) = "verified" \/
     normalizeLegacyStatus (JStr (status rec)) = "suspicious" \/
     (normalizeLegacyStatus (JStr (status rec)) = "unverified" /\ isDesktopish rec = true)).
Proof.
  intros Hlock.
  destruct (sourceBan req w) as [b|] eqn:Hip.
  { rewrite (computeAccessDecision_ip_banned _ _ _ _ Hip). discriminate. }
  destruct (String.eqb_spec (normalizeStr cid) "") as [E|E].
  { rewrite computeAccessDecision_no_token, Hlock by assumption. discriminate. }
  destruct (clients (accessStore w) !! normalizeStr cid) as [rec|] eqn:Hl.
  - rewrite (computeAccessDecision_known _ _ _ _ Hip E Hl). cbv zeta. rewrite Hlock.
    intros H. exists rec. split; [reflexivity|].
    destruct (String.eqb_spec (normalizeLegacyStatus (JStr (status rec))) "banned");
      [discriminate H|].
    destruct (String.eqb_spec (normalizeLegacyStatus (JStr (status rec))) "suspicious");
      [tauto|].
    destruct (String.eqb_spec (normalizeLegacyStatus (JStr (status rec))) "unverified");
      cbn [andb] in H.
    + destruct (isDesktopish rec); [tauto|].
      destruct (String.eqb_spec (normalizeLegacyStatus (JStr (status rec))) "verified");
        [tauto | discriminate H].
    + destruct (String.eqb_spec (normalizeLegacyStatus (JStr (status rec))) "verified");
        [tauto | discriminate H].
  - rewrite computeAccessDecision_unknown, Hlock by assumption. discriminate.
Qed.

(** ** Client records on sight *)

Lemma ensureClientRecord_new cid w :
  normalizeStr cid <> "" ->
  clients (accessStore w) !! normalizeStr cid = None ->
  ensureClientRecord cid w =
    (Some (normalizeStr cid),
     let a := withClients
                (<[normalizeStr cid :=
                     newClientRecord (clock w (ticks w)) (clock w (S (ticks w)))]>
                   (clients (accessStore w)))
                (accessStore w) in
     withAccessFile (a :: accessFile w)
       (withAccessStore a (withTicks (S (S (ticks w))) w))).
Proof.
  intros Hne Hl. unfold ensureClientRecord.
  apply isEmpty_false in Hne. rewrite Hne.
  run. rewrite Hl. run. reflexivity.
Qed.

Lemma ensureClientRecord_existing cid w rec :
  normalizeStr cid <> "" ->
  clients (accessStore w) !! normalizeStr cid = Some rec ->
  ensureClientRecord cid w =
    (Some (normalizeStr cid),
     withAccessStore
       (withClients
          (<[normalizeStr cid :=
               set_status (normalizeLegacyStatus (JStr (status rec)))
                 (set_lastSeenAt (clock w (ticks w)) rec)]>
             (clients (accessStore w)))
          (accessStore w))
       (withTicks (S (ticks w)) w)).
Proof.
  intros Hne Hl. unfold ensureClientRecord.
  apply isEmpty_false in Hne. rewrite Hne.
  run. rewrite Hl. run.
  rewrite (alter_lookup _ _ _ _ Hl), alter_insert_eq. reflexivity.
Qed.


Lemma recordClientTelemetry_known req cid dev w :
  normalizeStr cid <> "" ->
  exists r,
    clients (accessStore (snd (recordClientTelemetry req cid dev w))) !! normalizeStr cid
      = Some r.
Proof.
  intros Hne. unfold recordClientTelemetry, bind.
  destruct (clients (accessStore w) !! normalizeStr cid) as [rec|] eqn:Hl.
  - rewrite (ensureClientRecord_existing cid w rec) by assumption.
    run. destruct (isEmpty (getRequestIP req)); cbn [negb]; run;
      rewrite !alter_insert_eq, lookup_insert_eq; eauto.
  - rewrite ensureClientRecord_new by assumption. cbv zeta.
    run. destruct (isEmpty (getRequestIP req)); cbn [negb]; run;
      rewrite !alter_insert_eq, lookup_insert_eq; eauto.
Qed.


(** POST /api/auth with the right pin leaves the client [verified],
    whatever its status was. *)
Lemma postAuth_verifies cfg req w :
  AUTH_PIN cfg <> "" ->
  normalizeStr (body_pinAttempt req) = AUTH_PIN cfg ->
  normalizeStr (body_clientID req) <> "" ->
  fst (postAuth cfg req w) = RAllowed true /\
  status <$> clients (accessStore (snd (postAuth cfg req w)))
               !! normalizeStr (body_clientID req)
    = Some "verified".
Proof.
  intros Hpin Hatt Hne.
  set (id := normalizeStr (body_clientID req)) in *.
  assert (normalizeStr (JStr id) = id) as Hid by apply normalizeStr_idem.
  unfold postAuth, bind. fold id. rewrite Hatt.
  assert (isEmpty id = false) as -> by (apply isEmpty_false; exact Hne).
  assert (isEmpty (AUTH_PIN cfg) = false) as -> by (apply isEmpty_false; exact Hpin).
  rewrite String.eqb_refl. cbn [negb andb].
  destruct (recordClientTelemetry_known req (JStr id) None w) as [r Hr];
    [rewrite Hid; exact Hne|].
  destruct (recordClientTelemetry req (JStr id) None w) as [u w1].
  cbn [snd] in Hr. rewrite Hid in Hr.
  rewrite (ensureClientRecord_existing (JStr id) w1 r);
    [| rewrite Hid; exact Hne | rewrite Hid; exact Hr].
  rewrite Hid. run.
  rewrite !alter_insert_eq, lookup_insert_eq. split; reflexivity.
Qed.

(** ** Admin routes and site state *)

Lemma requirePin_ok cfg req next :
  ADMIN_PIN cfg <> "" ->
  hdr_adminPin req = Some (ADMIN_PIN cfg) ->
  requirePin cfg req next = next.
Proof.
  intros Hpin Hhdr. unfold requirePin. rewrite Hhdr. cbn [strOr].
  apply String.eqb_neq in Hpin. unfold isEmpty.
  rewrite Hpin, String.eqb_refl. reflexivity.
Qed.


Lemma pruneExpiredBroadcast_expired w b e :
  broadcast (state w) = Some b ->
  b_expiresAt b = JNum e ->
  e <= clock w (ticks w) ->
  pruneExpiredBroadcast w = (tt, expired w).
Proof.
  intros Hb He Hle. unfold pruneExpiredBroadcast. run.
  rewrite Hb, He. run.
  apply Z.leb_le in Hle. rewrite Hle. reflexivity.
Qed.

Lemma pruneExpiredBroadcast_live w b e :
  broadcast (state w) = Some b ->
  b_expiresAt b = JNum e ->
  clock w (ticks w) < e ->
  pruneExpiredBroadcast w = (tt, withTicks (S (ticks w)) w).
Proof.
  intros Hb He Hlt. unfold pruneExpiredBroadcast. run.
  rewrite Hb, He. run.
  apply Z.leb_gt in Hlt. rewrite Hlt. reflexivity.
Qed.

Lemma postBroadcast_effect cfg req w m :
  ADMIN_PIN cfg <> "" ->
  hdr_adminPin req = Some (ADMIN_PIN cfg) ->
  body_message req = JStr m ->
  JsString.trim m <> "" ->
  let b := {| b_id := {| id_time := clock w (S (ticks w)); id_random := random w (draws w) |};
              b_message := JsString.trim m;
              b_createdAt := clock w (ticks w);
              b_expiresAt := JNum (clock w (ticks w) + 86400000) |} in
  let s := withBroadcast (Some b) (state w) in
  postBroadcast cfg req w =
    (RBroadcast b,
     withWsSent (WsBroadcast b :: wsSent w)
       (withStateFile (s :: stateFile w)
          (withState s (withDraws (S (draws w)) (withTicks (S (S (ticks w))) w))))).
Proof.
  intros Hpin Hhdr Hm Hne b s. unfold postBroadcast.
  rewrite requirePin_ok by assumption. rewrite Hm.
  apply isEmpty_false in Hne. rewrite Hne.
  unfold makeId. run. reflexivity.
Qed.

(** Two bans of the same address in a row, starting without a record: the
    second keeps the stamp the first has taken from the clock. *)
Lemma adminBanIp_twice cfg first second w :
  ADMIN_PIN cfg <> "" ->
  hdr_adminPin first = Some (ADMIN_PIN cfg) ->
  hdr_adminPin second = Some (ADMIN_PIN cfg) ->
  normalizeStr (body_ip first) <> "" ->
  normalizeStr (body_ip second) = normalizeStr (body_ip first) ->
  ipBans (accessStore w) !! normalizeStr (body_ip first) = None ->
  clock w (ticks w) <> 0 ->
  ipBans (accessStore (snd (adminBanIp cfg second (snd (adminBanIp cfg first w)))))
    = <[normalizeStr (body_ip first) :=
          {| ban_message := clampStr (body_banMessage second) 500;
             ban_createdAt := clock w (ticks w);
             ban_updatedAt := clock w (S (S (ticks w))) |}]> (ipBans (accessStore w)).
Proof.
  intros Hpin H1 H2 Hip Hsame Hnone Hclock.
  unfold adminBanIp. rewrite !requirePin_ok by assumption. rewrite Hsame.
  apply isEmpty_false in Hip. rewrite Hip.
  run. rewrite Hnone. run. rewrite lookup_insert_eq. cbn [ban_createdAt].
  apply Z.eqb_neq in Hclock. rewrite Hclock. cbn [negb]. run_proj.
  apply insert_insert_eq.
Qed.

(** * The properties of the specification *)

(** ** IP ban precedence *)

(** C1.  A request whose source address has an IP ban record is refused
    with [allowed:false], [banned:true], reason [ip_ban] and the record's
    message as [clampStr] passes it on (the message itself when it is
    trimmed and within 500 characters), for every client token and whatever
    the store holds for that token; the store is left as it was. *)
Theorem ip_ban_overrides_client_status (req : Request) (clientID : jsval)
    (w : World) (rec : IPBanRecord) :
  sourceBan req w = Some rec ->
  computeAccessDecision req clientID w
    = (decide_ true false "ip_ban" None (Some (clampStr (JStr (ban_message rec)) 500)), w)
  /\ (JsString.trim (ban_message rec) = ban_message rec ->
      (String.length (ban_message rec) <= 500)%nat ->
      computeAccessDecision req clientID w
        = (decide_ true false "ip_ban" None (Some (ban_message rec)), w)).
Proof.
  intros Hb.
  pose proof (computeAccessDecision_ip_banned req clientID w rec Hb) as E.
  split; [exact E|].
  intros Ht Hlen. rewrite E, clampStr_fixed by assumption. reflexivity.
Qed.

Lemma ip_ban_overrides_client_status_witness :
  computeAccessDecision (Sample.check "Mozilla/5.0 (iPad)" "abc") (JStr "abc")
    (Sample.withIpBan "spam")
  = (decide_ true false "ip_ban" None (Some "spam"), Sample.withIpBan "spam").
Proof.
  apply (proj2 (ip_ban_overrides_client_status
                  (Sample.check "Mozilla/5.0 (iPad)" "abc") (JStr "abc")
                  (Sample.withIpBan "spam")
                  {| ban_message := "spam"; ban_createdAt := 1699990000000;
                     ban_updatedAt := 1699990000000 |} eq_refl)).
  - reflexivity.
  - cbn. lia.
Defined.

(** ** Access-lockdown gating *)

(** C2 at two stores under access-lockdown.  A client stored as
    [suspicious] is answered [allowed:true], and so is a client stored as
    [unverified] whose telemetry is desktop-class (it is marked suspicious
    on the way): the lockdown check is never reached for them. *)
Theorem lockdown_does_not_stop_suspicious_client :
  lockdown (accessStore (Sample.withClient true (Sample.client "suspicious" "Mozilla/5.0 (iPad)")))
    = true /\
  fst (computeAccessDecision (Sample.check "Mozilla/5.0 (iPad)" "abc") (JStr "abc")
         (Sample.withClient true (Sample.client "suspicious" "Mozilla/5.0 (iPad)")))
    = decide_ false true "client_suspicious" (Some "suspicious") None /\
  fst (computeAccessDecision (Sample.check "Mozilla/5.0 (Windows NT 10.0)" "abc") (JStr "abc")
         (Sample.withClient true (Sample.client "unverified" "Mozilla/5.0 (Windows NT 10.0)")))
    = decide_ false true "desktop_unverified_marked_suspicious" (Some "suspicious") None.
Proof. split; [|split]; reflexivity. Qed.

(** ** The suspicious short-circuit *)

(** C3.  A known client whose status is [suspicious] (step 4 of the
    evaluation: the source address is not banned and the token is not
    empty) gets [allowed:true], [banned:false], status [suspicious], and
    the evaluation ends there: the answer does not depend on the telemetry
    or on the access-lockdown flag, nothing is stamped and nothing is
    written, in any world, locked down or not. *)
Theorem suspicious_client_short_circuits (req : Request) (clientID : jsval)
    (w : World) (rec : ClientRecord) :
  sourceBan req w = None ->
  normalizeStr clientID <> "" ->
  clients (accessStore w) !! normalizeStr clientID = Some rec ->
  status rec = "suspicious" ->
  computeAccessDecision req clientID w
    = (decide_ false true "client_suspicious" (Some "suspicious") None, w).
Proof.
  intros Hip Hne Hl Hs.
  rewrite (computeAccessDecision_known _ _ _ _ Hip Hne Hl). cbv zeta.
  assert (normalizeLegacyStatus (JStr (status rec)) = "suspicious") as ->
    by (rewrite Hs; reflexivity).
  replace (set_status "suspicious" rec) with rec
    by (rewrite <- Hs; symmetry; apply set_status_same).
  rewrite storeClient_same by exact Hl.
  reflexivity.
Qed.

Lemma suspicious_client_short_circuits_witness :
  lockdown (accessStore (Sample.withClient true (Sample.client "suspicious" "Mozilla/5.0 (Windows NT 10.0)"))) = true
  /\ computeAccessDecision (Sample.check "Mozilla/5.0 (Windows NT 10.0)" "abc") (JStr "abc")
       (Sample.withClient true (Sample.client "suspicious" "Mozilla/5.0 (Windows NT 10.0)"))
     = (decide_ false true "client_suspicious" (Some "suspicious") None,
        Sample.withClient true (Sample.client "suspicious" "Mozilla/5.0 (Windows NT 10.0)")).
Proof.
  split; [reflexivity|].
  apply (suspicious_client_short_circuits _ _ _
           (Sample.client "suspicious" "Mozilla/5.0 (Windows NT 10.0)")).
  - reflexivity.
  - discriminate.
  - reflexivity.
  - reflexivity.
Defined.

(** ** Leaving the suspicious status *)

(** C4 at a store that holds "abc" as [suspicious]: POST /api/auth with the
    right pin answers [allowed:true] and leaves the client [verified]. *)
Theorem auth_pin_verifies_suspicious_client :
  status <$> clients (accessStore (Sample.withClient false
                        (Sample.client "suspicious" "Mozilla/5.0 (Windows NT 10.0)"))) !! "abc"
    = Some "suspicious" /\
  fst (postAuth Sample.cfg (Sample.auth "abc" "1234")
         (Sample.withClient false (Sample.client "suspicious" "Mozilla/5.0 (Windows NT 10.0)")))
    = RAllowed true /\
  status <$> clients (accessStore (snd (postAuth Sample.cfg (Sample.auth "abc" "1234")
                        (Sample.withClient false
                           (Sample.client "suspicious" "Mozilla/5.0 (Windows NT 10.0)")))))
               !! "abc"
    = Some "verified".
Proof. split; [|split]; reflexivity. Qed.

(** ** Heuristic gating and stickiness *)

(** C5.  One evaluation changes the status of a client only by the
    heuristic, and the heuristic acts only on the evaluated client, only
    when the status it reads is exactly [unverified] (the stored status,
    after the normalisation of legacy spellings that the evaluation starts
    with) and the stored telemetry is desktop-class; it then writes
    [suspicious].  A client stored as [verified], [suspicious] or [banned]
    keeps its whole record, and a suspicious client stays suspicious
    through any run of evaluations, whatever the requests. *)
Theorem heuristic_gating_and_stickiness (req : Request) (clientID : jsval)
    (w : World) (k : string) (rec : ClientRecord) :
  clients (accessStore w) !! k = Some rec ->
  exists rec',
    clients (accessStore (snd (computeAccessDecision req clientID w))) !! k = Some rec' /\
    (normalizeLegacyStatus (JStr (status rec')) <> normalizeLegacyStatus (JStr (status rec)) ->
       k = normalizeStr clientID /\
       normalizeLegacyStatus (JStr (status rec)) = "unverified" /\
       isDesktopish rec = true /\ status rec' = "suspicious") /\
    (canonical (status rec) -> status rec' <> status rec ->
       k = normalizeStr clientID /\ status rec = "unverified" /\
       isDesktopish rec = true /\ status rec' = "suspicious") /\
    (status rec = "verified" \/ status rec = "suspicious" \/ status rec = "banned" ->
       rec' = rec) /\
    (status rec = "suspicious" ->
       forall rs, clients (accessStore (snd (evaluateAll rs w))) !! k = Some rec).
Proof.
  intros Hk.
  destruct (computeAccessDecision_client req clientID w k rec Hk)
    as (rec' & Hk' & Hcase).
  exists rec'. split; [exact Hk'|].
  split; [|split; [|split]].
  - intros Hne. destruct Hcase as [-> | [(_ & ->) | (? & ? & ? & ->)]].
    + congruence.
    + exfalso. apply Hne. cbn [status set_status]. apply normalizeLegacyStatus_idem.
    + auto.
  - intros Hc Hne. destruct Hcase as [-> | [(_ & ->) | (? & Hu & ? & ->)]].
    + congruence.
    + exfalso. apply Hne. cbn [status set_status].
      apply normalizeLegacyStatus_fixed, Hc.
    + rewrite normalizeLegacyStatus_fixed in Hu by assumption. auto.
  - intros Hs. pose proof (suspicious_is_kept req clientID w k rec Hk Hs) as H.
    congruence.
  - intros Hs rs. apply evaluateAll_keeps_suspicious; assumption.
Qed.

Lemma heuristic_gating_and_stickiness_witness :
  clients (accessStore
             (snd (evaluateAll
                     [(Sample.check "Mozilla/5.0 (Windows NT 10.0)" "abc", JStr "abc");
                      (Sample.check "Mozilla/5.0 (Windows NT 10.0)" "abc", JStr "abc")]
                     (Sample.withClient true
                        (Sample.client "suspicious" "Mozilla/5.0 (Windows NT 10.0)")))))
    !! "abc"
  = Some (Sample.client "suspicious" "Mozilla/5.0 (Windows NT 10.0)").
Proof.
  destruct (heuristic_gating_and_stickiness
              (Sample.check "Mozilla/5.0 (Windows NT 10.0)" "abc") (JStr "abc")
              (Sample.withClient true
                 (Sample.client "suspicious" "Mozilla/5.0 (Windows NT 10.0)"))
              "abc" (Sample.client "suspicious" "Mozilla/5.0 (Windows NT 10.0)")
              eq_refl)
    as (rec' & _ & _ & _ & _ & H).
  apply H. reflexivity.
Defined.

(** ** First check of an unknown token *)




(** ** First check under access-lockdown *)




(** ** Broadcast lifecycle *)

(** C8.  POST /api/broadcast at clock reading [T] stores a broadcast with
    [createdAt = T] and [expiresAt = T + 86400000] and writes the state to
    its file.  The state query, the health check and a new subscription
    each start by reading the clock; if the reading is at or past
    [expiresAt] they clear the broadcast and write the cleared state to the
    file before answering, so that the state query and the snapshot of the
    subscription carry no broadcast.  In particular a state query whose
    reading is at or past [T + 86400000] answers [broadcast:null] for the
    broadcast just created. *)
Theorem broadcast_expires_after_24h (cfg : Config) (post req : Request) (w : World) :
  (ADMIN_PIN cfg <> "" ->
   hdr_adminPin post = Some (ADMIN_PIN cfg) ->
   forall m, body_message post = JStr m -> JsString.trim m <> "" ->
   exists b,
     fst (postBroadcast cfg post w) = RBroadcast b /\
     broadcast (state (snd (postBroadcast cfg post w))) = Some b /\
     b_createdAt b = clock w (ticks w) /\
     b_expiresAt b = JNum (b_createdAt b + 86400000) /\
     stateFile (snd (postBroadcast cfg post w))
       = state (snd (postBroadcast cfg post w)) :: stateFile w /\
     (clock w (ticks w) + 86400000 <= clock w (S (S (ticks w))) ->
      fst (getState req (snd (postBroadcast cfg post w)))
        = RState (site_lockdown (state w)) None)) /\
  (forall b e,
     broadcast (state w) = Some b ->
     b_expiresAt b = JNum e ->
     e <= clock w (ticks w) ->
     getState req w = (RState (site_lockdown (state w)) None, expired w) /\
     getHealth req w = (ROk, expired w) /\
     wsConnection w = (WsState (site_lockdown (state w)) None, expired w) /\
     broadcast (state (expired w)) = None /\
     stateFile (expired w) = state (expired w) :: stateFile w).
Proof.
  split.
  - intros Hpin Hhdr m Hm Hne.
    rewrite (postBroadcast_effect cfg post w m) by assumption. cbv zeta.
    eexists. split; [reflexivity|]. cbn [fst snd]. run_proj.
    repeat (split; [reflexivity|]).
    intros Hlate. unfold getState. unfold bind at 1.
    erewrite pruneExpiredBroadcast_expired; [reflexivity | reflexivity | reflexivity |].
    run_proj. exact Hlate.
  - intros b e Hb He Hle.
    assert (pruneExpiredBroadcast w = (tt, expired w)) as Hp
      by (eapply pruneExpiredBroadcast_expired; eassumption).
    unfold getState, getHealth, wsConnection, bind.
    rewrite Hp. repeat split; reflexivity.
Qed.

Lemma broadcast_expires_after_24h_witness :
  (exists b,
     fst (postBroadcast Sample.cfg (Sample.broadcastReq "  back at 9  ") Sample.slowWorld)
       = RBroadcast b /\
     b_message b = "back at 9" /\
     b_createdAt b = 1700000000000 /\
     b_expiresAt b = JNum 1700086400000) /\
  getState Sample.plain
    (snd (postBroadcast Sample.cfg (Sample.broadcastReq "  back at 9  ") Sample.slowWorld))
  = (RState {| enabled := false; updatedAt := 0 |} None,
     expired (snd (postBroadcast Sample.cfg (Sample.broadcastReq "  back at 9  ")
                     Sample.slowWorld))).
Proof.
  split.
  - destruct (proj1 (broadcast_expires_after_24h Sample.cfg
                       (Sample.broadcastReq "  back at 9  ") Sample.plain Sample.slowWorld))
      with (m := "  back at 9  ") as (b & Hr & _ & Hc & He & _).
    + discriminate.
    + reflexivity.
    + reflexivity.
    + vm_compute. discriminate.
    + exists b. split; [exact Hr|].
      split; [injection Hr as <-; reflexivity|].
      split; [exact Hc|]. rewrite He, Hc. reflexivity.
  - edestruct (proj2 (broadcast_expires_after_24h Sample.cfg
                        (Sample.broadcastReq "  back at 9  ") Sample.plain
                        (snd (postBroadcast Sample.cfg (Sample.broadcastReq "  back at 9  ")
                                Sample.slowWorld))))
      as (H & _).
    + reflexivity.
    + reflexivity.
    + vm_compute. discriminate.
    + exact H.
Defined.

(** ** Client records: creation and refresh *)




(** ** IP ban records *)



(** * Further properties of the code *)

(** ** String helpers *)

Lemma trimStart_blank s : JsString.trimStart s = "" <-> allWhiteSpace s = true.
Proof.
  induction s as [|c r IH]; simpl; [tauto|].
  destruct (JsString.isWhiteSpace c); simpl; [exact IH|].
  split; discriminate.
Qed.

Lemma trimEnd_blank s : JsString.trimEnd s = "" <-> allWhiteSpace s = true.
Proof.
  induction s as [|c r IH]; simpl; [tauto|].
  destruct (JsString.trimEnd r) as [|c' r'] eqn:E.
  - destruct (JsString.isWhiteSpace c); simpl.
    + split; intros _; [apply IH|]; reflexivity.
    + split; discriminate.
  - split; [discriminate|]. intros H. apply andb_true_iff in H as [_ H].
    apply IH in H. discriminate H.
Qed.



Lemma length_slice0 s n : (String.length (JsString.slice0 s n) <= n)%nat.
Proof.
  unfold JsString.slice0. revert s.
  induction n as [|n IH]; intros [|c r]; simpl; try lia.
  specialize (IH r). lia.
Qed.



(** X2.  [clampStr s n] never exceeds [n] characters and never starts with
    white space; a value that is not a string, or a blank one, gives the
    empty string, and a trimmed string within the bound comes back as it
    is. *)
Theorem clampStr_bounded (s : jsval) (n : nat) :
  (String.length (clampStr s n) <= n)%nat /\
  headNotSpace (clampStr s n) /\
  (normalizeStr s = "" -> clampStr s n = "") /\
  ((String.length (normalizeStr s) <= n)%nat -> clampStr s n = normalizeStr s).
Proof.
  assert (headNotSpace (normalizeStr s)) as Hh.
  { destruct s; simpl; try exact I.
    apply JsStringFacts.trimEnd_head, JsStringFacts.trimStart_head. }
  unfold clampStr.
  destruct (isEmpty (normalizeStr s)) eqn:E.
  - apply isEmpty_true in E. rewrite E. simpl.
    split; [lia|]. split; [exact I|]. split; reflexivity.
  - apply isEmpty_false in E.
    destruct (String.length (normalizeStr s) <=? n)%nat eqn:L.
    + apply Nat.leb_le in L.
      split; [exact L|]. split; [exact Hh|]. split; [contradiction | reflexivity].
    + apply Nat.leb_gt in L.
      split; [apply length_slice0|]. split; [|split; [contradiction | lia]].
      unfold JsString.slice0.
      destruct (normalizeStr s) as [|c r]; destruct n; simpl; auto.
Qed.

Lemma clampStr_bounded_witness :
  clampStr (JStr "  spam  ") 500 = "spam" /\ clampStr (JNum 7) 500 = "".
Proof.
  split.
  - apply (proj2 (proj2 (proj2 (clampStr_bounded (JStr "  spam  ") 500)))).
    vm_compute. lia.
  - apply (proj1 (proj2 (proj2 (clampStr_bounded (JNum 7) 500)))). reflexivity.
Defined.

(** X3.  [normalizeLegacyStatus] always answers one of the four statuses of
    the data model and is idempotent.  It answers [banned], [verified] or
    [suspicious] only for that very word (in any letter case, with white
    space around it); everything else, the legacy "unbanned" included,
    counts as [unverified]. *)
Theorem normalizeLegacyStatus_total (v : jsval) :
  canonical (normalizeLegacyStatus v) /\
  normalizeLegacyStatus (JStr (normalizeLegacyStatus v)) = normalizeLegacyStatus v /\
  (forall st, st = "banned" \/ st = "verified" \/ st = "suspicious" ->
     (normalizeLegacyStatus v = st <->
      JsString.toLowerCase (normalizeStr v) = st)) /\
  (JsString.toLowerCase (normalizeStr v) = "unbanned" ->
   normalizeLegacyStatus v = "unverified").
Proof.
  split; [apply normalizeLegacyStatus_canonical|].
  split; [apply normalizeLegacyStatus_idem|].
  unfold normalizeLegacyStatus.
  set (s := JsString.toLowerCase (normalizeStr v)).
  split.
  - intros st Hst.
    destruct (isEmpty s) eqn:E0.
    { apply isEmpty_true in E0. rewrite E0.
      destruct Hst as [-> | [-> | ->]]; split; discriminate. }
    destruct (String.eqb_spec s "unbanned") as [-> | _].
    { destruct Hst as [-> | [-> | ->]]; split; discriminate. }
    destruct (String.eqb_spec s "banned") as [-> | N1].
    { destruct Hst as [-> | [-> | ->]]; split; (reflexivity || discriminate). }
    destruct (String.eqb_spec s "verified") as [-> | N2].
    { destruct Hst as [-> | [-> | ->]]; split; (reflexivity || discriminate). }
    destruct (String.eqb_spec s "unverified") as [-> | _].
    { destruct Hst as [-> | [-> | ->]]; split; discriminate. }
    destruct (String.eqb_spec s "suspicious") as [-> | N3].
    { destruct Hst as [-> | [-> | ->]]; split; (reflexivity || discriminate). }
    destruct Hst as [-> | [-> | ->]]; split; (discriminate || congruence).
  - intros ->. reflexivity.
Qed.

Lemma normalizeLegacyStatus_total_witness :
  normalizeLegacyStatus (JStr "  Banned ") = "banned" /\
  normalizeLegacyStatus (JStr "UNBANNED") = "unverified".
Proof.
  split.
  - apply (proj1 (proj2 (proj2 (normalizeLegacyStatus_total (JStr "  Banned ")))) "banned").
    + left. reflexivity.
    + reflexivity.
  - apply (proj2 (proj2 (proj2 (normalizeLegacyStatus_total (JStr "UNBANNED"))))).
    reflexivity.
Defined.

(** ** The decision engine *)

(** Case analysis on the path an evaluation takes. *)
Ltac decision_cases req cid w :=
  let Hip := fresh "Hip" in
  let E := fresh "E" in
  let Hl := fresh "Hl" in
  destruct (sourceBan req w) eqn:Hip;
  [ rewrite (computeAccessDecision_ip_banned _ _ _ _ Hip)
  | destruct (String.eqb_spec (normalizeStr cid) "") as [E|E];
    [ rewrite (computeAccessDecision_no_token _ _ _ Hip E);
      destruct (lockdown (accessStore w))
    | destruct (clients (accessStore w) !! normalizeStr cid) eqn:Hl;
      [ rewrite (computeAccessDecision_known _ _ _ _ Hip E Hl); cbv zeta;
        destruct (String.eqb _ "banned");
        [ | destruct (String.eqb _ "suspicious");
            [ | destruct (String.eqb _ "unverified" && isDesktopish _);
                [ | destruct (lockdown (accessStore w));
                    [ destruct (String.eqb _ "verified") | ] ] ] ]
      | rewrite (computeAccessDecision_unknown _ _ _ Hip E Hl);
        destruct (lockdown (accessStore w)) ] ] ].

(** X4.  An evaluation never creates or removes a client record, and
    never touches the record of another client, the IP bans, the
    access-lockdown flag, or the site state, its file and the realtime
    channel. *)
Theorem computeAccessDecision_frame (req : Request) (clientID : jsval) (w : World) :
  dom (clients (accessStore (snd (computeAccessDecision req clientID w))))
    = dom (clients (accessStore w)) /\
  (forall k, k <> normalizeStr clientID ->
     clients (accessStore (snd (computeAccessDecision req clientID w))) !! k
       = clients (accessStore w) !! k) /\
  ipBans (accessStore (snd (computeAccessDecision req clientID w))) = ipBans (accessStore w) /\
  lockdown (accessStore (snd (computeAccessDecision req clientID w)))
    = lockdown (accessStore w) /\
  state (snd (computeAccessDecision req clientID w)) = state w /\
  stateFile (snd (computeAccessDecision req clientID w)) = stateFile w /\
  wsSent (snd (computeAccessDecision req clientID w)) = wsSent w.
Proof.
  destruct (computeAccessDecision_effect req clientID w)
    as [-> | (r & Hr & [-> | (_ & _ & ->)])].
  - repeat split; reflexivity.
  - unfold storeClient. run_proj.
    split; [apply dom_insert_lookup_L; eauto|].
    split; [intros k Hk; apply lookup_insert_ne; congruence|].
    repeat split; reflexivity.
  - unfold markSuspicious. run_proj.
    split; [apply dom_insert_lookup_L; eauto|].
    split; [intros k Hk; apply lookup_insert_ne; congruence|].
    repeat split; reflexivity.
Qed.

(** X5.  In every decision [allowed] is the negation of [banned]: a
    request is never both allowed and flagged banned, and every refusal,
    the lockdown refusals included, carries [banned:true]. *)
Theorem decision_allowed_iff_not_banned (req : Request) (clientID : jsval) (w : World) :
  allowed (fst (computeAccessDecision req clientID w))
    = negb (banned (fst (computeAccessDecision req clientID w))).
Proof.
  decision_cases req clientID w; reflexivity.
Qed.

(** X6.  An evaluation writes the access file only when it marks the
    client suspicious, and then the document written is the store as the
    evaluation leaves it and one reading of the clock is consumed; on
    every other path nothing is written and the clock is not read, so a
    status normalised on the way stays in memory only. *)
Theorem computeAccessDecision_persists_only_marking (req : Request) (clientID : jsval)
    (w : World) :
  if String.eqb (reason (fst (computeAccessDecision req clientID w)))
       "desktop_unverified_marked_suspicious"
  then accessFile (snd (computeAccessDecision req clientID w))
         = accessStore (snd (computeAccessDecision req clientID w)) :: accessFile w /\
       ticks (snd (computeAccessDecision req clientID w)) = S (ticks w)
  else accessFile (snd (computeAccessDecision req clientID w)) = accessFile w /\
       ticks (snd (computeAccessDecision req clientID w)) = ticks w.
Proof.
  decision_cases req clientID w; split; reflexivity.
Qed.



(** X8.  A client stored as [banned] is refused with reason [client_ban]
    and its ban message, whether or not access-lockdown is on and whatever
    its telemetry: the heuristic does not turn a banned client into a
    suspicious one, and nothing is written. *)
Theorem banned_client_refused (req : Request) (clientID : jsval) (w : World)
    (rec : ClientRecord) :
  sourceBan req w = None ->
  normalizeStr clientID <> "" ->
  clients (accessStore w) !! normalizeStr clientID = Some rec ->
  status rec = "banned" ->
  computeAccessDecision req clientID w
    = (decide_ true false "client_ban" (Some "banned")
         (Some (clampStr (JStr (banMessage rec)) 500)), w).
Proof.
  intros Hip Hne Hl Hs.
  rewrite (computeAccessDecision_known _ _ _ _ Hip Hne Hl). cbv zeta.
  assert (normalizeLegacyStatus (JStr (status rec)) = "banned") as ->
    by (rewrite Hs; reflexivity).
  replace (set_status "banned" rec) with rec
    by (rewrite <- Hs; symmetry; apply set_status_same).
  rewrite storeClient_same by exact Hl.
  reflexivity.
Qed.

Lemma banned_client_refused_witness :
  fst (computeAccessDecision (Sample.check "Mozilla/5.0 (Windows NT 10.0)" "abc") (JStr "abc")
         (Sample.withClient false (Sample.client "banned" "Mozilla/5.0 (Windows NT 10.0)")))
  = decide_ true false "client_ban" (Some "banned") (Some "").
Proof.
  rewrite (banned_client_refused _ _ _
             (Sample.client "banned" "Mozilla/5.0 (Windows NT 10.0)")).
  - reflexivity.
  - reflexivity.
  - discriminate.
  - reflexivity.
  - reflexivity.
Defined.

(** X9.  A client stored as [verified] is always allowed, with reason
    [lockdown_verified] under access-lockdown and [known_allowed]
    otherwise, and its record is left as it is even when its telemetry is
    desktop-class: the heuristic never reclassifies a verified client. *)
Theorem verified_client_allowed (req : Request) (clientID : jsval) (w : World)
    (rec : ClientRecord) :
  sourceBan req w = None ->
  normalizeStr clientID <> "" ->
  clients (accessStore w) !! normalizeStr clientID = Some rec ->
  status rec = "verified" ->
  computeAccessDecision req clientID w
    = (decide_ false true
         (if lockdown (accessStore w) then "lockdown_verified" else "known_allowed")
         (Some "verified") None, w).
Proof.
  intros Hip Hne Hl Hs.
  rewrite (computeAccessDecision_known _ _ _ _ Hip Hne Hl). cbv zeta.
  assert (normalizeLegacyStatus (JStr (status rec)) = "verified") as ->
    by (rewrite Hs; reflexivity).
  replace (set_status "verified" rec) with rec
    by (rewrite <- Hs; symmetry; apply set_status_same).
  rewrite storeClient_same by exact Hl.
  destruct (lockdown (accessStore w)); reflexivity.
Qed.

Lemma verified_client_allowed_witness :
  computeAccessDecision (Sample.check "Mozilla/5.0 (Windows NT 10.0)" "abc") (JStr "abc")
    (Sample.withClient true (Sample.client "verified" "Mozilla/5.0 (Windows NT 10.0)"))
  = (decide_ false true "lockdown_verified" (Some "verified") None,
     Sample.withClient true (Sample.client "verified" "Mozilla/5.0 (Windows NT 10.0)")).
Proof.
  apply (verified_client_allowed
           (Sample.check "Mozilla/5.0 (Windows NT 10.0)" "abc") (JStr "abc")
           (Sample.withClient true (Sample.client "verified" "Mozilla/5.0 (Windows NT 10.0)"))
           (Sample.client "verified" "Mozilla/5.0 (Windows NT 10.0)")).
  - reflexivity.
  - discriminate.
  - reflexivity.
  - reflexivity.
Defined.

(** ** Presence tracking *)

Lemma ensureClientRecord_clients cid w :
  normalizeStr cid <> "" ->
  fst (ensureClientRecord cid w) = Some (normalizeStr cid) /\
  accessStore (snd (ensureClientRecord cid w))
    = withClients (<[normalizeStr cid := ensuredRecord w (normalizeStr cid)]>
                     (clients (accessStore w))) (accessStore w) /\
  state (snd (ensureClientRecord cid w)) = state w /\
  stateFile (snd (ensureClientRecord cid w)) = stateFile w /\
  wsSent (snd (ensureClientRecord cid w)) = wsSent w /\
  clock (snd (ensureClientRecord cid w)) = clock w /\
  ticks (snd (ensureClientRecord cid w)) = (ticks w + ensureTicks w (normalizeStr cid))%nat.
Proof.
  intros Hne. unfold ensuredRecord, ensureTicks.
  destruct (clients (accessStore w) !! normalizeStr cid) as [rec|] eqn:Hl.
  - rewrite (ensureClientRecord_existing cid w rec) by assumption.
    run_proj. repeat split; try reflexivity. lia.
  - rewrite ensureClientRecord_new by assumption. cbv zeta.
    run_proj. repeat split; try reflexivity. lia.
Qed.

Lemma recordClientTelemetry_clients req cid dev w :
  normalizeStr cid <> "" ->
  accessStore (snd (recordClientTelemetry req cid dev w))
    = withClients (<[normalizeStr cid := seenRecord req dev w (normalizeStr cid)]>
                     (clients (accessStore w))) (accessStore w) /\
  state (snd (recordClientTelemetry req cid dev w)) = state w /\
  stateFile (snd (recordClientTelemetry req cid dev w)) = stateFile w /\
  wsSent (snd (recordClientTelemetry req cid dev w)) = wsSent w /\
  clock (snd (recordClientTelemetry req cid dev w)) = clock w /\
  exists older,
    accessFile (snd (recordClientTelemetry req cid dev w))
      = accessStore (snd (recordClientTelemetry req cid dev w)) :: older.
Proof.
  intros Hne. unfold seenRecord, ensuredRecord, ensureTicks.
  unfold recordClientTelemetry, bind.
  destruct (clients (accessStore w) !! normalizeStr cid) as [rec|] eqn:Hl.
  - rewrite (ensureClientRecord_existing cid w rec) by assumption.
    run. destruct (isEmpty (getRequestIP req)); cbn [negb andb]; run;
      rewrite !alter_insert_eq, ?insert_insert_eq, ?andb_false_r;
      replace (ticks w + 1)%nat with (S (ticks w)) by lia;
      repeat split; eauto.
  - rewrite ensureClientRecord_new by assumption. cbv zeta.
    run. destruct (isEmpty (getRequestIP req)); cbn [negb andb]; run;
      rewrite !alter_insert_eq, ?insert_insert_eq, ?andb_false_r;
      replace (ticks w + 2)%nat with (S (S (ticks w))) by lia;
      repeat split; eauto.
Qed.







(** ** POST /api/check *)

Lemma strOr_empty s : strOr (Some s) "" = s.
Proof. unfold strOr. destruct (String.eqb_spec s ""); congruence. Qed.

Ltac respond :=
  unfold gets, ret, storeClient, markSuspicious, decide_; run_proj;
  cbn [banned allowed reason d_status d_banMessage]; rewrite ?strOr_empty.

Lemma seenRecord_fields req w id :
  status (seenRecord req None w id) = knownStatus w id /\
  banMessage (seenRecord req None w id) = knownBanMessage w id /\
  isDesktopish (seenRecord req None w id) = desktopClassAgent req.
Proof.
  unfold seenRecord, ensuredRecord, knownStatus, knownBanMessage.
  destruct (clients (accessStore w) !! id) as [rec|];
    destruct (isEmpty _ && negb (isEmpty (getRequestIP req)));
    destruct (negb (isEmpty (getRequestIP req))); repeat split.
Qed.

Lemma knownStatus_canonical w id : canonical (knownStatus w id).
Proof.
  unfold knownStatus. destruct (clients (accessStore w) !! id).
  - apply normalizeLegacyStatus_canonical.
  - unfold canonical. tauto.
Qed.

Lemma postCheck_with_token req w :
  sourceBan req w = None ->
  normalizeStr (body_clientID req) <> "" ->
  let id := normalizeStr (body_clientID req) in
  let st := knownStatus w id in
  let locked := lockdown (accessStore w) in
  fst (postCheck req w) =
    if String.eqb st "banned" then
      RCheck true false locked "banned" "client_ban"
        (clampStr (JStr (knownBanMessage w id)) 500)
    else if String.eqb st "suspicious" then
      RCheck false true locked "suspicious" "client_suspicious" ""
    else if String.eqb st "unverified" && desktopClassAgent req then
      RCheck false true locked "suspicious" "desktop_unverified_marked_suspicious" ""
    else if locked then
      if String.eqb st "verified"
      then RCheck false true true st "lockdown_verified" ""
      else RCheck true false true st "lockdown_not_verified" ""
    else RCheck false true false st "known_allowed" "".
Proof.
  intros Hip Hne id st locked.
  assert (normalizeStr (JStr id) = id) as Hid by apply normalizeStr_idem.
  unfold postCheck, bind. fold id.
  assert (isEmpty id = false) as -> by (apply isEmpty_false; exact Hne).
  cbn [negb].
  destruct (recordClientTelemetry_clients req (JStr id) None w) as (Hs & _);
    [rewrite Hid; exact Hne|].
  rewrite Hid in Hs.
  destruct (seenRecord_fields req w id) as (Hst & Hmsg & Hd).
  destruct (recordClientTelemetry req (JStr id) None w) as [u w1].
  cbn [snd] in Hs.
  assert (sourceBan req w1 = None) as Hip1.
  { unfold sourceBan in *. rewrite Hs. exact Hip. }
  assert (clients (accessStore w1) !! id = Some (seenRecord req None w id)) as Hl
    by (rewrite Hs; apply lookup_insert_eq).
  assert (lockdown (accessStore w1) = locked) as Hlock by (rewrite Hs; reflexivity).
  rewrite (computeAccessDecision_known req (JStr id) w1 (seenRecord req None w id));
    [| exact Hip1 | rewrite Hid; exact Hne | rewrite Hid; exact Hl].
  cbv zeta. rewrite Hst, Hmsg, Hd, Hlock. fold st.
  assert (normalizeLegacyStatus (JStr st) = st) as ->
    by (apply normalizeLegacyStatus_fixed, knownStatus_canonical).
  assert (strOr (Some st) "unverified" = st) as Hor.
  { destruct (knownStatus_canonical w id) as [H | [H | [H | H]]];
      fold st in H; rewrite H; reflexivity. }
  destruct (String.eqb st "banned").
  { respond. rewrite Hlock. reflexivity. }
  destruct (String.eqb st "suspicious").
  { respond. rewrite Hlock. reflexivity. }
  destruct (String.eqb st "unverified" && desktopClassAgent req).
  { respond. rewrite Hlock. reflexivity. }
  destruct locked eqn:El.
  - destruct (String.eqb st "verified"); respond; rewrite Hlock, Hor; reflexivity.
  - respond. rewrite Hlock, Hor. reflexivity.
Qed.







(** ** What a request about one client leaves alone *)

Lemma sameExcept_refl id w : sameExcept id w w.
Proof. unfold sameExcept. repeat split; auto. Qed.

Lemma sameExcept_trans id w1 w2 w3 :
  sameExcept id w1 w2 -> sameExcept id w2 w3 -> sameExcept id w1 w3.
Proof.
  unfold sameExcept.
  intros (A1 & B1 & C1 & D1 & E1 & F1 & G1 & H1) (A2 & B2 & C2 & D2 & E2 & F2 & G2 & H2).
  repeat split; try congruence; auto.
  intros k Hk. rewrite A2, A1 by exact Hk. reflexivity.
Qed.

Lemma touches_ret {A} id (P : A -> Prop) a : P a -> touches id P (ret a).
Proof. intros H w. split; [apply sameExcept_refl | exact H]. Qed.

Lemma touches_bind {A B} id (P : A -> Prop) (Q : B -> Prop) (m : M A) (k : A -> M B) :
  touches id P m -> (forall a, P a -> touches id Q (k a)) -> touches id Q (bind m k).
Proof.
  intros Hm Hk w. unfold bind.
  destruct (Hm w) as [H1 Hp]. destruct (m w) as [a w1]. cbn [fst snd] in *.
  destruct (Hk a Hp w1) as [H2 Hq]. split; [|exact Hq].
  eapply sameExcept_trans; eassumption.
Qed.

Lemma touches_weaken {A} id (P Q : A -> Prop) (m : M A) :
  touches id P m -> (forall a, P a -> Q a) -> touches id Q m.
Proof. intros Hm H w. destruct (Hm w). split; auto. Qed.

Lemma touches_gets {A} id (f : World -> A) : touches id (fun _ => True) (gets f).
Proof. intros w. split; [apply sameExcept_refl | exact I]. Qed.

Lemma touches_nowMs id : touches id (fun _ => True) nowMs.
Proof. intros w. split; [|exact I]. unfold nowMs, sameExcept. run_proj. repeat split; auto. Qed.

Lemma touches_saveAccess id : touches id (fun _ => True) saveAccess.
Proof.
  intros w. split; [|exact I]. unfold saveAccess, modify, sameExcept. run_proj.
  repeat split; auto.
Qed.

Lemma touches_updClient id f : touches id (fun _ => True) (updClient id f).
Proof.
  intros w. split; [|exact I]. unfold updClient, modify, sameExcept. run_proj.
  repeat split; auto.
  - intros k Hk. apply lookup_alter_ne. congruence.
  - intros [r Hr]. rewrite lookup_alter_eq, Hr. eauto.
Qed.

Lemma touches_ensureClientRecord x :
  touches (normalizeStr x) (fun o => o = None \/ o = Some (normalizeStr x))
    (ensureClientRecord (JStr (normalizeStr x))).
Proof.
  intros w. set (id := normalizeStr x).
  assert (normalizeStr (JStr id) = id) as Hid by apply normalizeStr_idem.
  destruct (String.eqb_spec id "") as [E|E].
  - unfold ensureClientRecord. rewrite Hid, E. cbn [isEmpty String.eqb].
    split; [apply sameExcept_refl | left; reflexivity].
  - destruct (ensureClientRecord_clients (JStr id) w) as (Hf & Hs & H1 & H2 & H3 & H4 & _);
      [rewrite Hid; exact E|].
    rewrite Hid in *. split; [|right; exact Hf].
    unfold sameExcept. rewrite Hs. cbn [clients withClients ipBans lockdown].
    repeat split; auto.
    + intros k Hk. apply lookup_insert_ne. congruence.
    + intros _. rewrite lookup_insert_eq. eauto.
Qed.

Lemma touches_recordClientTelemetry req x dev :
  touches (normalizeStr x) (fun _ => True)
    (recordClientTelemetry req (JStr (normalizeStr x)) dev).
Proof.
  intros w. split; [|exact I]. set (id := normalizeStr x).
  assert (normalizeStr (JStr id) = id) as Hid by apply normalizeStr_idem.
  destruct (String.eqb_spec id "") as [E|E].
  - unfold recordClientTelemetry, bind, ensureClientRecord.
    rewrite Hid, E. cbn [isEmpty String.eqb]. apply sameExcept_refl.
  - destruct (recordClientTelemetry_clients req (JStr id) dev w)
      as (Hs & H1 & H2 & H3 & H4 & _); [rewrite Hid; exact E|].
    rewrite Hid in *.
    unfold sameExcept. rewrite Hs. cbn [clients withClients ipBans lockdown].
    repeat split; auto.
    + intros k Hk. apply lookup_insert_ne. congruence.
    + intros _. rewrite lookup_insert_eq. eauto.
Qed.

Lemma touches_computeAccessDecision req x :
  touches (normalizeStr x) (fun _ => True)
    (computeAccessDecision req (JStr (normalizeStr x))).
Proof.
  intros w. split; [|exact I]. set (id := normalizeStr x).
  assert (normalizeStr (JStr id) = id) as Hid by apply normalizeStr_idem.
  destruct (computeAccessDecision_effect req (JStr id) w)
    as [-> | (r & Hr & [-> | (_ & _ & ->)])].
  - apply sameExcept_refl.
  - rewrite Hid in *. unfold storeClient, sameExcept. run_proj. repeat split; auto.
    + intros k Hk. apply lookup_insert_ne. congruence.
    + intros _. rewrite lookup_insert_eq. eauto.
  - rewrite Hid in *. unfold markSuspicious, sameExcept. run_proj. repeat split; auto.
    + intros k Hk. apply lookup_insert_ne. congruence.
    + intros _. rewrite lookup_insert_eq. eauto.
Qed.

(** One step of the frame argument, by the shape of the computation. *)
Ltac frame_step :=
  match goal with
  | |- touches _ _ (ret _) => apply touches_ret; exact I
  | |- touches _ _ (bind (ensureClientRecord _) _) =>
      eapply touches_bind;
      [ apply touches_ensureClientRecord
      | let o := fresh "o" in let Ho := fresh "Ho" in
        intros o Ho; destruct Ho as [-> | ->]; cbv beta iota ]
  | |- touches _ _ (bind (getClient _) _) =>
      eapply touches_bind; [ apply touches_gets | intros [?|] _; cbv beta iota ]
  | |- touches _ _ (bind _ _) =>
      eapply touches_bind with (P := fun _ => True); [ | intros ? _; cbv beta iota ]
  | |- touches _ _ (if ?b then _ else _) => destruct b
  | |- touches _ _ (gets _) => apply touches_gets
  | |- touches _ _ (getClient _) => apply touches_gets
  | |- touches _ _ nowMs => apply touches_nowMs
  | |- touches _ _ saveAccess => apply touches_saveAccess
  | |- touches _ _ (updClient _ _) => apply touches_updClient
  | |- touches _ _ (recordClientTelemetry _ _ _) => apply touches_recordClientTelemetry
  | |- touches _ _ (computeAccessDecision _ _) => apply touches_computeAccessDecision
  end.

(** X16.  A request about one client never alters what is stored about
    another: every route that takes a client token (hello, auth, check,
    self-unban and the five admin routes on clients), whether it succeeds
    or is refused, leaves the records under all other tokens, the IP bans,
    the access-lockdown flag and the site state as they were, and never
    removes the record of its own client. *)
Theorem client_routes_touch_one_client (cfg : Config) (route : Request -> M Response)
    (req : Request) (w : World) :
  In route (clientRoutes cfg) ->
  sameExcept (normalizeStr (body_clientID req)) w (snd (route req w)).
Proof.
  intros Hin.
  assert (touches (normalizeStr (body_clientID req)) (fun _ => True) (route req)) as H;
    [|apply H].
  unfold clientRoutes in Hin. cbn [In] in Hin.
  repeat (destruct Hin as [<- | Hin]); [..|contradiction];
    unfold postHello, postAuth, postCheck, postUnban, adminVerify, adminSuspicious,
      adminClearSuspicious, adminBan, adminUnban, requirePin, respondStatus;
    cbv zeta; repeat frame_step.
Qed.

Lemma client_routes_touch_one_client_witness :
  clients (accessStore (snd (adminBan Sample.cfg
                               (Sample.request None (Some "admin-pin") (JStr "other")
                                  JUndefined JUndefined (JStr "spam") JUndefined JUndefined)
                               (Sample.withClient false (Sample.client "verified" "curl/8.0")))))
    !! "abc"
  = Some (Sample.client "verified" "curl/8.0").
Proof.
  destruct (client_routes_touch_one_client Sample.cfg (adminBan Sample.cfg)
              (Sample.request None (Some "admin-pin") (JStr "other")
                 JUndefined JUndefined (JStr "spam") JUndefined JUndefined)
              (Sample.withClient false (Sample.client "verified" "curl/8.0")))
    as (H & _).
  - cbn. tauto.
  - rewrite H; [reflexivity | discriminate].
Defined.

(** ** The admin routes on clients *)

Lemma ensureClientRecord_pair x w :
  normalizeStr x <> "" ->
  exists w1,
    ensureClientRecord (JStr (normalizeStr x)) w = (Some (normalizeStr x), w1) /\
    accessStore w1
      = withClients (<[normalizeStr x := ensuredRecord w (normalizeStr x)]>
                       (clients (accessStore w))) (accessStore w) /\
    clock w1 = clock w /\
    ticks w1 = (ticks w + ensureTicks w (normalizeStr x))%nat.
Proof.
  intros Hne.
  assert (normalizeStr (JStr (normalizeStr x)) = normalizeStr x) as Hid
    by apply normalizeStr_idem.
  destruct (ensureClientRecord_clients (JStr (normalizeStr x)) w)
    as (Hf & Hs & _ & _ & _ & Hc & Ht); [rewrite Hid; exact Hne|].
  rewrite Hid in *.
  destruct (ensureClientRecord (JStr (normalizeStr x)) w) as [o w1].
  cbn [fst snd] in *. subst o. eauto.
Qed.

(** After [ensureClientRecord]: run the rest of a handler on the world it
    leaves and read the record back. *)
Ltac after_ensure Hne :=
  let w1 := fresh "w1" in
  let Hs := fresh "Hs" in
  let Hc := fresh "Hc" in
  let Ht := fresh "Ht" in
  unfold bind;
  match goal with
  | |- context [ensureClientRecord (JStr (normalizeStr ?x)) ?w] =>
      destruct (ensureClientRecord_pair x w Hne) as (w1 & -> & Hs & Hc & Ht)
  end;
  unfold respondStatus; run; rewrite ?Hs; run_proj;
  rewrite ?alter_insert_eq, ?lookup_insert_eq, ?Hc, ?Ht.






(** X19.  Without the admin pin nothing happens: when ADMIN_PIN is not
    configured, or the x-admin-pin header is missing or different, every
    admin route answers 401 "Unauthorized" and leaves the world, clock
    included, exactly as it was. *)
Theorem admin_routes_need_the_pin (cfg : Config) (req : Request) (w : World) :
  ADMIN_PIN cfg = "" \/ strOr (hdr_adminPin req) "" <> ADMIN_PIN cfg ->
  Forall (fun route => route req w = (RError 401 "Unauthorized", w))
    [ adminVerify cfg; adminSuspicious cfg; adminClearSuspicious cfg;
      adminBan cfg; adminUnban cfg; adminBanIp cfg; adminUnbanIp cfg;
      adminLockdown cfg; postBroadcast cfg; postLockdown cfg; postClearLockdown cfg ].
Proof.
  intros H.
  assert (forall next, requirePin cfg req next w = (RError 401 "Unauthorized", w)) as Hr.
  { intros next. unfold requirePin.
    destruct H as [-> | H]; [reflexivity|].
    apply String.eqb_neq in H. rewrite H. rewrite orb_true_r. reflexivity. }
  repeat constructor;
    unfold adminVerify, adminSuspicious, adminClearSuspicious, adminBan, adminUnban,
      adminBanIp, adminUnbanIp, adminLockdown, postBroadcast, postLockdown,
      postClearLockdown; apply Hr.
Qed.

Lemma admin_routes_need_the_pin_witness :
  Forall (fun route =>
            route (Sample.request None (Some "guess") (JStr "abc") JUndefined
                     JUndefined JUndefined JUndefined JUndefined) Sample.world0
            = (RError 401 "Unauthorized", Sample.world0))
    [ adminVerify Sample.cfg; adminSuspicious Sample.cfg;
      adminClearSuspicious Sample.cfg; adminBan Sample.cfg; adminUnban Sample.cfg;
      adminBanIp Sample.cfg; adminUnbanIp Sample.cfg; adminLockdown Sample.cfg;
      postBroadcast Sample.cfg; postLockdown Sample.cfg; postClearLockdown Sample.cfg ].
Proof.
  apply admin_routes_need_the_pin. right. vm_compute. discriminate.
Defined.

(** ** The two pin gates of the public routes *)

Lemma seenRecord_status_any req dev w id :
  status (seenRecord req dev w id) = knownStatus w id /\
  banMessage (seenRecord req dev w id) = knownBanMessage w id /\
  verifiedAt (seenRecord req dev w id)
    = match clients (accessStore w) !! id with Some rec => verifiedAt rec | None => 0 end.
Proof.
  unfold seenRecord, ensuredRecord, knownStatus, knownBanMessage.
  destruct (clients (accessStore w) !! id) as [rec|];
    destruct (isEmpty _ && negb (isEmpty (getRequestIP req)));
    destruct (negb (isEmpty (getRequestIP req))); repeat split.
Qed.

(** X20.  A failed attempt at POST /api/auth verifies nobody.  When
    AUTH_PIN is not configured or the attempt differs from it, the answer
    is [allowed:false], and every client that reads as verified afterwards
    read as verified before, with the same [verifiedAt]; the request is
    still recorded as a sighting of its client. *)
Theorem failed_auth_verifies_nobody (cfg : Config) (req : Request) (w : World) :
  AUTH_PIN cfg = "" \/ normalizeStr (body_pinAttempt req) <> AUTH_PIN cfg ->
  fst (postAuth cfg req w) = RAllowed false /\
  forall k r,
    clients (accessStore (snd (postAuth cfg req w))) !! k = Some r ->
    status r = "verified" ->
    exists rec, clients (accessStore w) !! k = Some rec /\
      normalizeLegacyStatus (JStr (status rec)) = "verified" /\
      verifiedAt r = verifiedAt rec.
Proof.
  intros Hpin.
  set (id := normalizeStr (body_clientID req)).
  assert (normalizeStr (JStr id) = id) as Hid by apply normalizeStr_idem.
  assert (postAuth cfg req w =
          (RAllowed false,
           if negb (isEmpty id) then snd (recordClientTelemetry req (JStr id) None w)
           else w)) as ->.
  { unfold postAuth, bind. fold id.
    destruct (negb (isEmpty id)) eqn:Eid.
    - destruct (recordClientTelemetry req (JStr id) None w) as [u w1]. cbn [snd].
      destruct (isEmpty (AUTH_PIN cfg)) eqn:Ep; [reflexivity|].
      destruct Hpin as [Hp | Hp]; [apply isEmpty_true in Hp; congruence|].
      apply String.eqb_neq in Hp. rewrite Hp. reflexivity.
    - unfold ret at 1. destruct (isEmpty (AUTH_PIN cfg)) eqn:Ep; [reflexivity|].
      destruct Hpin as [Hp | Hp]; [apply isEmpty_true in Hp; congruence|].
      apply String.eqb_neq in Hp. rewrite Hp. reflexivity. }
  cbn [fst snd]. split; [reflexivity|].
  intros k r Hk Hv.
  destruct (isEmpty id) eqn:Eid; cbn [negb] in Hk.
  - exists r. split; [exact Hk|]. rewrite Hv. split; reflexivity.
  - apply isEmpty_false in Eid.
    destruct (recordClientTelemetry_clients req (JStr id) None w) as (Hs & _);
      [rewrite Hid; exact Eid|].
    rewrite Hid in Hs. rewrite Hs in Hk. cbn [clients withClients] in Hk.
    destruct (decide (id = k)) as [<- | Hne].
    + rewrite lookup_insert_eq in Hk. injection Hk as <-.
      destruct (seenRecord_status_any req None w id) as (Hst & _ & Hva).
      rewrite Hst in Hv. unfold knownStatus in Hv.
      destruct (clients (accessStore w) !! id) as [rec|]; [|discriminate Hv].
      exists rec. repeat split; assumption.
    + rewrite lookup_insert_ne in Hk by exact Hne.
      exists r. split; [exact Hk|]. rewrite Hv. split; reflexivity.
Qed.

Lemma failed_auth_verifies_nobody_witness :
  fst (postAuth Sample.cfg (Sample.auth "abc" "0000")
         (Sample.withClient true (Sample.client "unverified" "curl/8.0")))
  = RAllowed false.
Proof.
  apply (failed_auth_verifies_nobody Sample.cfg (Sample.auth "abc" "0000")
           (Sample.withClient true (Sample.client "unverified" "curl/8.0"))).
  right. discriminate.
Defined.



(** ** Operator decisions at the next check *)

Lemma sourceBan_same req w w' :
  ipBans (accessStore w') = ipBans (accessStore w) -> sourceBan req w' = sourceBan req w.
Proof. intros H. unfold sourceBan. rewrite H. reflexivity. Qed.

(** X22.  What the operator decides shows at the client's next check,
    from an address that is not banned.  After /api/admin/ban the check is
    refused with reason [client_ban] and the message of the ban, whatever
    the lockdown flag; after /api/admin/verify it is allowed, under
    access-lockdown too and with a desktop-class user agent too. *)
Theorem operator_decision_shows_at_check (cfg : Config) (admin req : Request)
    (w : World) :
  ADMIN_PIN cfg <> "" ->
  hdr_adminPin admin = Some (ADMIN_PIN cfg) ->
  normalizeStr (body_clientID admin) <> "" ->
  normalizeStr (body_clientID req) = normalizeStr (body_clientID admin) ->
  sourceBan req w = None ->
  fst (postCheck req (snd (adminBan cfg admin w)))
    = RCheck true false (lockdown (accessStore w)) "banned" "client_ban"
        (clampStr (JStr (clampStr (body_banMessage admin) 500)) 500) /\
  fst (postCheck req (snd (adminVerify cfg admin w)))
    = RCheck false true (lockdown (accessStore w)) "verified"
        (if lockdown (accessStore w) then "lockdown_verified" else "known_allowed") "".
Proof.
  intros Hpin Hhdr Hne Hsame Hip.
  assert (isEmpty (normalizeStr (body_clientID admin)) = false) as Hid
    by (apply isEmpty_false; exact Hne).
  split.
  - assert (accessStore (snd (adminBan cfg admin w))
            = withClients
                (<[normalizeStr (body_clientID admin) :=
                     set_lastSeenAt
                       (clock w (ticks w + ensureTicks w (normalizeStr (body_clientID admin))))
                       (set_banMessage (clampStr (body_banMessage admin) 500)
                          (set_status "banned"
                             (ensuredRecord w (normalizeStr (body_clientID admin)))))]>
                   (clients (accessStore w))) (accessStore w)) as Hs.
    { unfold adminBan. rewrite requirePin_ok by assumption. rewrite Hid.
      after_ensure Hne. reflexivity. }
    rewrite postCheck_with_token;
      [| rewrite (sourceBan_same req w); [exact Hip | rewrite Hs; reflexivity]
       | rewrite Hsame; exact Hne ].
    cbv zeta. unfold knownStatus, knownBanMessage.
    rewrite Hsame, Hs. cbn [clients withClients lockdown].
    rewrite lookup_insert_eq. reflexivity.
  - assert (accessStore (snd (adminVerify cfg admin w))
            = withClients
                (<[normalizeStr (body_clientID admin) :=
                     set_lastSeenAt
                       (clock w (S (ticks w + ensureTicks w (normalizeStr (body_clientID admin)))))
                       (set_verifiedAt
                          (clock w (ticks w + ensureTicks w (normalizeStr (body_clientID admin))))
                          (set_status "verified"
                             (ensuredRecord w (normalizeStr (body_clientID admin)))))]>
                   (clients (accessStore w))) (accessStore w)) as Hs.
    { unfold adminVerify. rewrite requirePin_ok by assumption. rewrite Hid.
      after_ensure Hne. reflexivity. }
    rewrite postCheck_with_token;
      [| rewrite (sourceBan_same req w); [exact Hip | rewrite Hs; reflexivity]
       | rewrite Hsame; exact Hne ].
    cbv zeta. unfold knownStatus, knownBanMessage.
    rewrite Hsame, Hs. cbn [clients withClients lockdown].
    rewrite lookup_insert_eq.
    destruct (lockdown (accessStore w)); reflexivity.
Qed.

Lemma operator_decision_shows_at_check_witness :
  fst (postCheck (Sample.check "Mozilla/5.0 (Windows NT 10.0)" "abc")
         (snd (adminVerify Sample.cfg
                 (Sample.request None (Some "admin-pin") (JStr "abc") JUndefined
                    JUndefined JUndefined JUndefined JUndefined)
                 (Sample.withClient true (Sample.client "unverified" "curl/8.0")))))
  = RCheck false true true "verified" "lockdown_verified" "".
Proof.
  apply (operator_decision_shows_at_check Sample.cfg
           (Sample.request None (Some "admin-pin") (JStr "abc") JUndefined
              JUndefined JUndefined JUndefined JUndefined)
           (Sample.check "Mozilla/5.0 (Windows NT 10.0)" "abc")
           (Sample.withClient true (Sample.client "unverified" "curl/8.0")));
    solve [reflexivity | discriminate].
Defined.

(** ** IP bans *)




(** ** The site state *)

Lemma pruneExpiredBroadcast_frame w :
  accessStore (snd (pruneExpiredBroadcast w)) = accessStore w /\
  accessFile (snd (pruneExpiredBroadcast w)) = accessFile w /\
  wsSent (snd (pruneExpiredBroadcast w)) = wsSent w /\
  site_lockdown (state (snd (pruneExpiredBroadcast w))) = site_lockdown (state w).
Proof.
  unfold pruneExpiredBroadcast. run.
  destruct (broadcast (state w)) as [b|]; [|repeat split].
  destruct (b_expiresAt b); run; try (repeat split; fail).
  destruct (_ <=? _); run; repeat split.
Qed.

Lemma pruneExpiredBroadcast_keeps w :
  live w ->
  state (snd (pruneExpiredBroadcast w)) = state w /\
  stateFile (snd (pruneExpiredBroadcast w)) = stateFile w.
Proof.
  unfold live, pruneExpiredBroadcast. run.
  destruct (broadcast (state w)) as [b|]; [|repeat split].
  destruct (b_expiresAt b); run; try (repeat split; fail).
  intros H. apply Z.leb_gt in H. rewrite H. run. repeat split.
Qed.

(** X24.  A broadcast is served until it expires.  As long as the stored
    broadcast is not due (there is none, or its expiresAt is not a number,
    or the clock reads less than expiresAt), GET /api/state and the
    snapshot of a new subscription carry the lockdown record and the
    broadcast exactly as stored, and neither they nor GET /health change
    the site state or write the state file. *)
Theorem broadcast_served_until_expiry (req : Request) (w : World) :
  live w ->
  fst (getState req w) = RState (site_lockdown (state w)) (broadcast (state w)) /\
  fst (wsConnection w) = WsState (site_lockdown (state w)) (broadcast (state w)) /\
  Forall (fun w' => state w' = state w /\ stateFile w' = stateFile w)
    [ snd (getState req w); snd (wsConnection w); snd (getHealth req w) ].
Proof.
  intros H. destruct (pruneExpiredBroadcast_keeps w H) as (Hs & Hf).
  unfold getState, wsConnection, getHealth, bind, ret, gets.
  destruct (pruneExpiredBroadcast w) as [[] w1]. cbn [fst snd] in *.
  rewrite Hs. repeat split; repeat constructor; assumption.
Qed.

Lemma broadcast_served_until_expiry_witness :
  exists b,
    fst (getState Sample.plain
           (snd (postBroadcast Sample.cfg (Sample.broadcastReq "maintenance at 9")
                   Sample.world0)))
      = RState {| enabled := false; updatedAt := 0 |} (Some b) /\
    b_message b = "maintenance at 9".
Proof.
  eexists. split.
  - apply (broadcast_served_until_expiry Sample.plain
             (snd (postBroadcast Sample.cfg (Sample.broadcastReq "maintenance at 9")
                     Sample.world0))).
    vm_compute. reflexivity.
  - reflexivity.
Defined.

Lemma trim_blank m : allWhiteSpace m = true -> JsString.trim m = "".
Proof.
  intros H. apply trimStart_blank in H. unfold JsString.trim. rewrite H. reflexivity.
Qed.

Lemma trim_not_blank m : allWhiteSpace m = false -> JsString.trim m <> "".
Proof.
  intros H E. unfold JsString.trim in E. apply trimEnd_blank in E.
  assert (allWhiteSpace m = true); [|congruence].
  clear H. induction m as [|c r IH]; [reflexivity|].
  cbn [JsString.trimStart] in E. cbn [allWhiteSpace].
  destruct (JsString.isWhiteSpace c) eqn:Ec.
  - cbn [andb]. apply IH. exact E.
  - cbn [allWhiteSpace] in E. rewrite Ec in E. discriminate.
Qed.

(** X25.  POST /api/broadcast with the admin pin.  A body whose message is
    not a string, or is white space only, is answered 400 "message
    required" and nothing changes, the clock not being read.  Any other
    message is trimmed and stored in place of the previous broadcast, the
    site lockdown and the access store staying as they were, the state
    file is written, and one [broadcast] event carrying the stored
    broadcast is pushed to the subscribers. *)
Theorem postBroadcast_validates_message (cfg : Config) (req : Request) (w : World) :
  ADMIN_PIN cfg <> "" ->
  hdr_adminPin req = Some (ADMIN_PIN cfg) ->
  if blankMessage (body_message req) then
    postBroadcast cfg req w = (RError 400 "message required", w)
  else
    exists m b,
      body_message req = JStr m /\
      fst (postBroadcast cfg req w) = RBroadcast b /\
      b_message b = JsString.trim m /\
      state (snd (postBroadcast cfg req w))
        = {| site_lockdown := site_lockdown (state w); broadcast := Some b |} /\
      stateFile (snd (postBroadcast cfg req w))
        = state (snd (postBroadcast cfg req w)) :: stateFile w /\
      wsSent (snd (postBroadcast cfg req w)) = WsBroadcast b :: wsSent w /\
      accessStore (snd (postBroadcast cfg req w)) = accessStore w /\
      accessFile (snd (postBroadcast cfg req w)) = accessFile w.
Proof.
  intros Hpin Hhdr.
  destruct (blankMessage (body_message req)) eqn:Hb.
  - unfold postBroadcast. rewrite requirePin_ok by assumption.
    destruct (body_message req) as [| | | |m|]; try reflexivity.
    cbn [blankMessage] in Hb. rewrite (trim_blank m Hb). reflexivity.
  - destruct (body_message req) as [| | | |m|] eqn:Hm; try discriminate.
    cbn [blankMessage] in Hb. apply trim_not_blank in Hb.
    rewrite (postBroadcast_effect cfg req w m Hpin Hhdr Hm Hb).
    cbv zeta. run_proj.
    eexists. eexists. repeat split.
Qed.

Lemma postBroadcast_validates_message_witness :
  postBroadcast Sample.cfg (Sample.broadcastReq "   ") Sample.world0
  = (RError 400 "message required", Sample.world0).
Proof.
  apply (postBroadcast_validates_message Sample.cfg (Sample.broadcastReq "   ")
           Sample.world0); [discriminate | reflexivity].
Defined.

(** X26.  The site lockdown switch.  With the admin pin, POST /api/lockdown
    and POST /api/clear-lockdown set the flag to true, resp. false, stamp
    the record with the time of the request, keep the broadcast, write the
    state file, push one [lockdown] event with the same flag and stamp,
    and answer with the record as stored. *)
Theorem site_lockdown_switch (cfg : Config) (req : Request) (w : World) (on : bool) :
  ADMIN_PIN cfg <> "" ->
  hdr_adminPin req = Some (ADMIN_PIN cfg) ->
  let route := if on then postLockdown cfg else postClearLockdown cfg in
  let w' := snd (route req w) in
  fst (route req w) = RSiteLockdown (site_lockdown (state w')) /\
  site_lockdown (state w') = {| enabled := on; updatedAt := clock w (ticks w) |} /\
  broadcast (state w') = broadcast (state w) /\
  stateFile w' = state w' :: stateFile w /\
  wsSent w' = WsLockdown on (clock w (ticks w)) :: wsSent w.
Proof.
  intros Hpin Hhdr.
  destruct on; cbv zeta; unfold postLockdown, postClearLockdown;
    rewrite requirePin_ok by assumption; unfold setSiteLockdown; run;
    repeat split.
Qed.

Lemma site_lockdown_switch_witness :
  fst (postLockdown Sample.cfg Sample.lockdownOn Sample.world0)
  = RSiteLockdown {| enabled := true; updatedAt := 1700000000000 |}.
Proof.
  destruct (site_lockdown_switch Sample.cfg Sample.lockdownOn Sample.world0 true)
    as (H & _); [discriminate | reflexivity |].
  exact H.
Defined.

(** X27.  The two stores are independent.  The routes on the site state
    (health, state, broadcast, lockdown, clear-lockdown), accepted or
    refused, never change the access store or write the access file; the
    admin routes on addresses and on the access-lockdown flag never change
    a client record or the site state, never write the state file and
    never push an event. *)
Theorem stores_are_independent (cfg : Config) (route : Request -> M Response)
    (req : Request) (w : World) :
  (In route (siteRoutes cfg) ->
   accessStore (snd (route req w)) = accessStore w /\
   accessFile (snd (route req w)) = accessFile w) /\
  (In route (addressRoutes cfg) ->
   clients (accessStore (snd (route req w))) = clients (accessStore w) /\
   state (snd (route req w)) = state w /\
   stateFile (snd (route req w)) = stateFile w /\
   wsSent (snd (route req w)) = wsSent w).
Proof.
  split; intros Hin.
  - destruct (pruneExpiredBroadcast_frame w) as (Hs & Hf & _).
    unfold siteRoutes in Hin. cbn [In] in Hin.
    repeat (destruct Hin as [<- | Hin]); [..|contradiction];
      unfold getHealth, getState, postBroadcast, postLockdown, postClearLockdown,
        setSiteLockdown, requirePin.
    + unfold bind, ret. destruct (pruneExpiredBroadcast w). split; assumption.
    + unfold bind, ret, gets. destruct (pruneExpiredBroadcast w). split; assumption.
    + destruct (_ || _); [split; reflexivity|].
      destruct (isEmpty _); [split; reflexivity|].
      unfold makeId. run. split; reflexivity.
    + destruct (_ || _); [split; reflexivity|]. run. split; reflexivity.
    + destruct (_ || _); [split; reflexivity|]. run. split; reflexivity.
  - unfold addressRoutes in Hin. cbn [In] in Hin.
    repeat (destruct Hin as [<- | Hin]); [..|contradiction];
      unfold adminBanIp, adminUnbanIp, adminLockdown, requirePin;
      (destruct (_ || _); [repeat split|]).
    + destruct (isEmpty _); [repeat split|]. run.
      destruct (ipBans (accessStore w) !! _) as [e|];
        [destruct (negb (ban_createdAt e =? 0))|]; run; repeat split.
    + destruct (isEmpty _); [repeat split|]. run.
      destruct (ipBans (accessStore w) !! _); run; repeat split.
    + run. repeat split.
Qed.

Lemma stores_are_independent_witness :
  accessStore (snd (postBroadcast Sample.cfg (Sample.broadcastReq "maintenance at 9")
                      (Sample.withIpBan "spam")))
  = accessStore (Sample.withIpBan "spam").
Proof.
  destruct (stores_are_independent Sample.cfg (postBroadcast Sample.cfg)
              (Sample.broadcastReq "maintenance at 9") (Sample.withIpBan "spam"))
    as ((H & _) & _).
  - cbn. tauto.
  - exact H.
Defined.

(** ** POST /api/hello *)


(** ** The earlier revision *)

Lemma legacy_ensureClientRecord_clients id w :
  id <> "" ->
  normalizeStr (JStr id) = id ->
  exists w1,
    Legacy.ensureClientRecord (JStr id) w = (Some id, w1) /\
    lockdown (accessStore w1) = lockdown (accessStore w) /\
    exists rec,
      clients (accessStore w1) !! id = Some rec /\
      status rec = match clients (accessStore w) !! id with
                   | Some r => status r
                   | None => "unbanned"
                   end.
Proof.
  intros Hne Hid. unfold Legacy.ensureClientRecord. rewrite Hid.
  apply isEmpty_false in Hne. rewrite Hne. run.
  destruct (clients (accessStore w) !! id) as [r|] eqn:Hl; run.
  - eexists. split; [reflexivity|]. run_proj. split; [reflexivity|].
    eexists. split; [rewrite lookup_alter_eq, Hl; reflexivity|reflexivity].
  - eexists. split; [reflexivity|]. run_proj. split; [reflexivity|].
    eexists. split; [apply lookup_insert_eq|reflexivity].
Qed.

(** X29.  In the earlier revision (server.js) access-lockdown only stops
    requests without a token.  POST /api/check with a token records the
    client before deciding, so the decision always finds a known client:
    the request is refused exactly when the stored status is "banned",
    whatever the lockdown flag, which the answer reports unchanged.
    Without a token the request is refused exactly under lockdown. *)
Theorem legacy_check_refuses_only_banned (req : Request) (w : World) :
  fst (Legacy.postCheck req w) =
    let id := normalizeStr (body_clientID req) in
    let refused :=
      if isEmpty id then lockdown (accessStore w)
      else match clients (accessStore w) !! id with
           | Some r => String.eqb (status r) "banned"
           | None => false
           end in
    {| Legacy.c_banned := refused; Legacy.c_allowed := negb refused;
       Legacy.c_lockdown := lockdown (accessStore w) |}.
Proof.
  cbv zeta. unfold Legacy.postCheck. cbv zeta.
  destruct (isEmpty (normalizeStr (body_clientID req))) eqn:He.
  - apply String.eqb_eq in He. rewrite He.
    unfold Legacy.computeAccessDecision. cbn [normalizeStr JsString.trim
      JsString.trimStart JsString.trimEnd isEmpty String.eqb negb]. run.
    destruct (lockdown (accessStore w)) eqn:El; cbn; rewrite ?El; reflexivity.
  - apply isEmpty_false in He. cbn [negb]. unfold bind at 1 2.
    destruct (legacy_ensureClientRecord_clients (normalizeStr (body_clientID req)) w He
                (normalizeStr_idem _)) as (w1 & -> & Hl & rec & Hrec & Hst).
    unfold ret at 1. unfold Legacy.computeAccessDecision.
    rewrite normalizeStr_idem.
    assert (isEmpty (normalizeStr (body_clientID req)) = false) as ->
      by (apply isEmpty_false; exact He).
    run. rewrite Hrec, Hst.
    destruct (clients (accessStore w) !! normalizeStr (body_clientID req)) as [r|].
    + destruct (String.eqb (status r) "banned"); run; rewrite ?Hl;
        [reflexivity|].
      destruct (lockdown (accessStore w)); cbn; rewrite ?Hl; reflexivity.
    + cbn [String.eqb Ascii.eqb Bool.eqb]. run. rewrite ?Hl.
      destruct (lockdown (accessStore w)); cbn; rewrite ?Hl; reflexivity.
Qed.


